(** * spartanews: the article views (articles/views.py)

    A shallow embedding of the Django REST views of the [articles] app:
    the content feed with its popularity annotations, the detail lookup,
    the comment lists, the owner-gated update and soft delete, and the
    like / favorite toggles.

    The relational store is explicit.  Tables are finite maps from the
    primary key to the row, many-to-many relations are finite sets of
    (user id, target id) pairs (the through tables carry a uniqueness
    constraint on the pair).  Time stamps are integers, microseconds since
    the epoch; the age in days is the floor of a double-precision quotient,
    as SQLite computes it.  Query values are Python strings, kept in UTF-8.

    The views are modelled as they are written: [get_queryset] as a
    function of the store, the clock and the query string, the handlers
    [put], [delete] and the three toggles as functions from the store to
    an outcome and a store.  What the framework does around a handler
    (permission classes, pagination, rendering) is not part of the model.
    A foreign key is followed through its id column, as the database keeps
    it consistent. *)

From Stdlib Require Import ZArith Ascii String QArith Qround Qpower Lqa.
From stdpp Require Import base gmap sets list strings sorting.

Local Open Scope string_scope.
Local Open Scope Z_scope.

(** ** Storage *)

(** Columns the views never look into (title, body, ...): name and value. *)
Definition columns : Type := list (string * string).

Record UserInfo := {
  username : string
}.

Record ContentInfo := {
  content_userinfo_id : Z;
  content_fields : columns;
  content_create_dt : Z;
  content_is_visible : bool
}.

Record CommentInfo := {
  comment_userinfo_id : Z;
  comment_contentinfo_id : Z;
  comment_fields : columns;
  comment_create_dt : Z;
  comment_is_visible : bool
}.

(** [favorite_contents], [liked_contents] and [liked_comments] are the
    many-to-many fields of the user model, each a set of
    (userinfo id, target id) pairs.  On the content side the reverse name
    of [liked_contents] is [liked_by]; the comments of a content row are
    reached through the reverse name [comments_on_content] of the
    comment's foreign key. *)
Record DB := {
  users : gmap Z UserInfo;
  contents : gmap Z ContentInfo;
  comments : gmap Z CommentInfo;
  favorite_contents : gset (Z * Z);
  liked_contents : gset (Z * Z);
  liked_comments : gset (Z * Z)
}.

Definition set_contents (t : gmap Z ContentInfo) (db : DB) : DB :=
  {| users := users db; contents := t; comments := comments db;
     favorite_contents := favorite_contents db;
     liked_contents := liked_contents db;
     liked_comments := liked_comments db |}.

Definition set_comments (t : gmap Z CommentInfo) (db : DB) : DB :=
  {| users := users db; contents := contents db; comments := t;
     favorite_contents := favorite_contents db;
     liked_contents := liked_contents db;
     liked_comments := liked_comments db |}.

Definition set_favorite_contents (s : gset (Z * Z)) (db : DB) : DB :=
  {| users := users db; contents := contents db; comments := comments db;
     favorite_contents := s;
     liked_contents := liked_contents db;
     liked_comments := liked_comments db |}.

Definition set_liked_contents (s : gset (Z * Z)) (db : DB) : DB :=
  {| users := users db; contents := contents db; comments := comments db;
     favorite_contents := favorite_contents db;
     liked_contents := s;
     liked_comments := liked_comments db |}.

Definition set_liked_comments (s : gset (Z * Z)) (db : DB) : DB :=
  {| users := users db; contents := contents db; comments := comments db;
     favorite_contents := favorite_contents db;
     liked_contents := liked_contents db;
     liked_comments := s |}.

(** ** Exceptions and responses *)

Inductive exn :=
  | InvalidQueryParamsException   (* the view's own APIException, 406 *)
  | DoesNotExist                  (* Model.objects.get found no row *)
  | Http404                       (* get_object_or_404 found no row *)
  | ValidationError.              (* is_valid(raise_exception=True) *)

Inductive result (A : Type) :=
  | Ok (a : A)
  | Raise (e : exn).
Arguments Ok {A} a.
Arguments Raise {A} e.

#[global] Instance result_ret : MRet result := λ A a, Ok a.

#[global] Instance result_bind : MBind result := λ A B k r,
  match r with
  | Ok a => k a
  | Raise e => Raise e
  end.

Inductive value :=
  | VStr (s : string)
  | VInt (n : Z).

Record Response := {
  status_code : Z;
  data : list (string * value)
}.

Definition HTTP_200_OK : Z := 200.
Definition HTTP_201_CREATED : Z := 201.
Definition HTTP_202_ACCEPTED : Z := 202.
Definition HTTP_204_NO_CONTENT : Z := 204.
Definition HTTP_403_FORBIDDEN : Z := 403.
Definition HTTP_404_NOT_FOUND : Z := 404.
Definition HTTP_406_NOT_ACCEPTABLE : Z := 406.

(** The status the framework's exception handler answers with: [Http404]
    becomes 404, an [APIException] answers with its [status_code]
    (406 for [InvalidQueryParamsException], 400 for [ValidationError]);
    [DoesNotExist] is not an API exception and surfaces as a server error. *)
Definition exn_status (e : exn) : Z :=
  match e with
  | InvalidQueryParamsException => HTTP_406_NOT_ACCEPTABLE
  | DoesNotExist => 500
  | Http404 => HTTP_404_NOT_FOUND
  | ValidationError => 400
  end.

(** A view that reads and writes the store and may raise: nothing is
    written before an exception in any of the views below, so an exception
    leaves the store it found. *)
Definition view (A : Type) : Type := DB → result A * DB.

#[global] Instance view_ret : MRet view := λ A a db, (Ok a, db).

#[global] Instance view_bind : MBind view := λ A B k m db,
  match m db with
  | (Ok a, db') => k a db'
  | (Raise e, db') => (Raise e, db')
  end.

Definition query {A} (f : DB → A) : view A := λ db, (Ok (f db), db).
Definition try {A} (f : DB → result A) : view A := λ db, (f db, db).
Definition write (f : DB → DB) : view () := λ db, (Ok (), f db).
Definition raise {A} (e : exn) : view A := λ db, (Raise e, db).

(** The status a client sees. *)
Definition http_status (r : result Response) : Z :=
  match r with
  | Ok resp => status_code resp
  | Raise e => exn_status e
  end.

(** A model serializer, used with [partial=True] on an existing instance:
    [is_valid] checks the payload, [save] writes the validated fields to
    the instance, [serializer_data] renders the instance.  The serializer
    classes live in serializers.py; the views are parametric in them. *)
Record Serializer (M : Type) := {
  is_valid : M → columns → bool;
  save : M → columns → M;
  serializer_data : Z * M → list (string * value)
}.
Arguments is_valid {M} s instance payload.
Arguments save {M} s instance payload.
Arguments serializer_data {M} s instance.

(** The same serializer classes on [POST], with request data and no
    instance: [is_valid_data] checks the payload and [create] builds the
    row from the validated fields and the model's defaults, before the
    keyword arguments of [save] are laid over it; [created_data] renders
    the saved instance. *)
Record CreateSerializer (M : Type) := {
  is_valid_data : columns → bool;
  create : columns → M;
  created_data : Z * M → list (string * value)
}.
Arguments is_valid_data {M} c payload.
Arguments create {M} c payload.
Arguments created_data {M} c instance.

(** What [post] ends in when the anonymous user is handed to the foreign
    key of the new row: not an API exception. *)
Inductive crash := ValueError.

(** ** Python strings *)

(** A [str] is a sequence of code points.  The model keeps a query value
    in UTF-8, the form it has in the query string once the percent
    escapes are resolved, and decodes it where the code looks at its
    characters.  A byte sequence that is not UTF-8 is the value of no
    [str]. *)
Definition bytes (s : string) : list Z :=
  (λ c, Z.of_N (N_of_ascii c)) <$> list_ascii_of_string s.

Definition continuation (b : Z) : bool := (0x80 <=? b) && (b <=? 0xBF).

Fixpoint decode (bs : list Z) : option (list Z) :=
  match bs with
  | [] => Some []
  | b0 :: bs =>
      if b0 <? 0x80 then cons b0 <$> decode bs
      else if b0 <? 0xE0 then
        match bs with
        | b1 :: bs =>
            let cp := (b0 - 0xC0) * 64 + (b1 - 0x80) in
            if continuation b1 && (0x80 <=? cp)
            then cons cp <$> decode bs else None
        | _ => None
        end
      else if b0 <? 0xF0 then
        match bs with
        | b1 :: b2 :: bs =>
            let cp := ((b0 - 0xE0) * 64 + (b1 - 0x80)) * 64 + (b2 - 0x80) in
            if continuation b1 && continuation b2 && (0x800 <=? cp)
               && negb ((0xD800 <=? cp) && (cp <=? 0xDFFF))
            then cons cp <$> decode bs else None
        | _ => None
        end
      else
        match bs with
        | b1 :: b2 :: b3 :: bs =>
            let cp := (((b0 - 0xF0) * 64 + (b1 - 0x80)) * 64 + (b2 - 0x80)) * 64
                      + (b3 - 0x80) in
            if continuation b1 && continuation b2 && continuation b3
               && (0x10000 <=? cp) && (cp <=? 0x10FFFF)
            then cons cp <$> decode bs else None
        | _ => None
        end
  end.

Definition code_points (s : string) : option (list Z) := decode (bytes s).

(** The decimal digits of the Unicode character database (general
    category Nd, version 14.0): every script's digits are ten consecutive
    code points, zero first; the table lists the zeros. *)
Definition decimal_zeros : list Z :=
  [0x30; 0x660; 0x6F0; 0x7C0; 0x966; 0x9E6; 0xA66; 0xAE6;
   0xB66; 0xBE6; 0xC66; 0xCE6; 0xD66; 0xDE6; 0xE50; 0xED0;
   0xF20; 0x1040; 0x1090; 0x17E0; 0x1810; 0x1946; 0x19D0; 0x1A80;
   0x1A90; 0x1B50; 0x1BB0; 0x1C40; 0x1C50; 0xA620; 0xA8D0; 0xA900;
   0xA9D0; 0xA9F0; 0xAA50; 0xABF0; 0xFF10; 0x104A0; 0x10D30; 0x11066;
   0x110F0; 0x11136; 0x111D0; 0x112F0; 0x11450; 0x114D0; 0x11650; 0x116C0;
   0x11730; 0x118E0; 0x11950; 0x11C50; 0x11D50; 0x11DA0; 0x16A60; 0x16AC0;
   0x16B50; 0x1D7CE; 0x1D7D8; 0x1D7E2; 0x1D7EC; 0x1D7F6; 0x1E140; 0x1E2F0;
   0x1E950; 0x1FBF0].

(** [unicodedata.decimal]: the digit a code point stands for, if any. *)
Definition decimal (cp : Z) : option Z :=
  (λ zero, cp - zero) <$>
    List.find (λ zero, (zero <=? cp) && (cp <? zero + 10)) decimal_zeros.

(** [str.isdecimal]: non-empty and every character a decimal digit, of
    any script. *)
Definition isdecimal (s : string) : bool :=
  match code_points s with
  | Some (cp :: cps) => forallb (λ cp, bool_decide (is_Some (decimal cp))) (cp :: cps)
  | _ => false
  end.

(** [int(s)] on a decimal string: the digits' values, base ten. *)
Definition int (s : string) : Z :=
  fold_left (λ acc cp, 10 * acc + default 0 (decimal cp))
            (default [] (code_points s)) 0.

(** Truth value of [query_params.get(name)]: [None] and the empty string
    are false. *)
Definition truthy (o : option string) : bool :=
  match o with
  | Some s => negb (String.eqb s "")
  | None => false
  end.

(** ** The ORM fragment the views use *)

Module orm.

(** A model instance: primary key and row. *)
Abbreviation instance A := (Z * A)%type (only parsing).

(** [Model.objects.get(pk=k)]. *)
Definition objects_get {A} (t : gmap Z A) (k : Z) : result (instance A) :=
  match t !! k with
  | Some r => Ok (k, r)
  | None => Raise DoesNotExist
  end.

(** [get_object_or_404(Model, pk=k)]. *)
Definition get_object_or_404 {A} (t : gmap Z A) (k : Z) : result (instance A) :=
  match t !! k with
  | Some r => Ok (k, r)
  | None => Raise Http404
  end.

(** The integers SQLite stores and binds as a query parameter.  Primary
    keys and foreign-key ids are such integers.  A filter on a
    foreign-key id ([userinfo_id=...], [contentinfo_id=...]) that is
    handed a Python int outside this range raises OverflowError when the
    query runs; the model does not follow a query there, and the theorems
    that promise an answer to such a filter take the id within the
    range. *)
Definition sqlite_integer (n : Z) : Prop := - 2 ^ 63 ≤ n < 2 ^ 63.

(** The three many-to-many managers of a user instance. *)
Inductive related :=
  | via_favorite_contents
  | via_liked_contents
  | via_liked_comments.

Definition through (db : DB) (r : related) : gset (Z * Z) :=
  match r with
  | via_favorite_contents => favorite_contents db
  | via_liked_contents => liked_contents db
  | via_liked_comments => liked_comments db
  end.

(** A query over a table: the rows the WHERE clause on the table's own
    columns keeps and, for a query that comes from a related manager of
    user [u], the INNER JOIN to the through table with
    WHERE through.userinfo_id = u. *)
Record QuerySet (A : Type) := {
  qs_rows : list (instance A);
  qs_join : option (related * Z)
}.
Arguments qs_rows {A} q.
Arguments qs_join {A} q.

(** [Model.objects] and [user.<manager>] as queries. *)
Definition objects {A} (t : gmap Z A) : QuerySet A :=
  {| qs_rows := map_to_list t; qs_join := None |}.

Definition related_manager {A} (t : gmap Z A) (r : related) (u : instance UserInfo)
    : QuerySet A :=
  {| qs_rows := map_to_list t; qs_join := Some (r, u.1) |}.

(** [qs.filter(...)] on the table's own columns. *)
Definition qs_filter {A} (P : instance A → Prop) `{∀ r, Decision (P r)}
    (q : QuerySet A) : QuerySet A :=
  {| qs_rows := filter P (qs_rows q); qs_join := qs_join q |}.

(** The through rows that join user [u] to target [k]. *)
Definition through_rows (db : DB) (r : related) (u k : Z) : list (Z * Z) :=
  filter (λ p, p = (u, k)) (elements (through db r)).

(** Evaluating a query without annotations: one result row per row of
    the join. *)
Definition fetch {A} (db : DB) (q : QuerySet A) : list (instance A) :=
  match qs_join q with
  | None => qs_rows q
  | Some (r, u) => row ← qs_rows q; _ ← through_rows db r u row.1; [row]
  end.

(** [qs.exists()]. *)
Definition qs_exists {A} (db : DB) (q : QuerySet A) : bool :=
  match fetch db q with
  | [] => false
  | _ => true
  end.

(** The column a LEFT OUTER JOIN contributes for one content row: the
    matching rows of the joined table, or one NULL when none matches. *)
Definition left_outer {B} (matching : list B) : list (option B) :=
  match matching with
  | [] => [None]
  | _ => Some <$> matching
  end.

Definition comments_on_content (db : DB) (k : Z) : list (instance CommentInfo) :=
  filter (λ m, comment_contentinfo_id m.2 = k) (map_to_list (comments db)).

Definition liked_by (db : DB) (k : Z) : list (Z * Z) :=
  filter (λ p, p.2 = k) (elements (liked_contents db)).

(** One row of the join under an annotated content query: the comment
    column and the liked_by column. *)
Definition join_row : Type := option (instance CommentInfo) * option (Z * Z).

(** The rows of the join that make up the group of content row [k] once
    [comments_on_content] and [liked_by] are referenced by an
    annotation.  Each reference adds a LEFT OUTER JOIN, except that a
    reference to [liked_by] reuses the join a [liked_contents] manager
    already placed (an annotation may reuse any join of the query), and
    then sees that join's rows only. *)
Definition join_rows (db : DB) (j : option (related * Z)) (k : Z) : list join_row :=
  let cms := left_outer (comments_on_content db k) in
  match j with
  | None => list_prod cms (left_outer (liked_by db k))
  | Some (via_liked_contents, u) =>
      l ← through_rows db via_liked_contents u k;
      (λ cm, (cm, Some l)) <$> cms
  | Some (r, u) =>
      _ ← through_rows db r u k;
      list_prod cms (left_outer (liked_by db k))
  end.

(** Evaluating an annotated content query: GROUP BY the content row;
    a row the INNER JOIN drops has no group. *)
Definition groups (db : DB) (q : QuerySet ContentInfo)
    : list (instance ContentInfo * list join_row) :=
  row ← qs_rows q;
  match join_rows db (qs_join q) row.1 with
  | [] => []
  | g => [(row, g)]
  end.

(** [Count(F(col))]: the rows of the group whose [col] is not NULL. *)
Definition Count {R C} (col : R → option C) (group : list R) : Z :=
  Z.of_nat (length (filter (λ r, is_Some (col r)) group)).

(** Python's [a / b] on integers is the double nearest to the exact
    quotient, ties to the even mantissa.  For a positive rational [x] in
    the binade [2^e <= x < 2^(e+1)] the doubles are the multiples of
    [2^(e-52)]; [binade] finds [e] from the bit lengths of numerator and
    denominator.  (The quotients of the views are far from the ends of
    the exponent range.) *)
Definition pow2 (e : Z) : Q := Qpower 2 e.

Definition round_half_even (x : Q) : Z :=
  let f := Qfloor x in
  match Qcompare (x - inject_Z f) (1 # 2) with
  | Lt => f
  | Eq => if Z.even f then f else f + 1
  | Gt => f + 1
  end.

Definition binade (x : Q) : Z :=
  let e := Z.log2 (Qnum x) - Z.log2 (Zpos (Qden x)) in
  if Qle_bool (pow2 e) x then e else e - 1.

Definition nearest_double (x : Q) : Q :=
  let ulp := pow2 (binade x - 52) in
  (inject_Z (round_half_even (x / ulp)) * ulp)%Q.

Definition true_divide (a b : Z) : Q :=
  match (a ?= 0)%Z with
  | Eq => 0%Q
  | Gt => nearest_double (a # Z.to_pos b)
  | Lt => (- nearest_double (- a # Z.to_pos b))%Q
  end.

(** [FLOOR(a / b)] for a duration [a] in microseconds and a positive
    integer [b].  On SQLite the quotient is computed by Python, in double
    precision, and the floor is taken of the double. *)
Definition FLOOR_div (a b : Z) : Z := Qfloor (true_divide a b).

(** [datetime.replace(microsecond=0)]. *)
Definition replace_microsecond_0 (t : Z) : Z := t - t `mod` 1000000.

(** [qs.order_by(...)]: the rows in the order of [R].  The database is
    free in the order of rows that tie on every key; the model sorts
    stably. *)
Definition order_by {A} (R : relation A) `{∀ x y, Decision (R x y)}
    (rows : list A) : list A :=
  merge_sort R rows.

End orm.

(** ** The annotated content row both content views serialize *)

Record Row := {
  pk : Z;
  row_instance : ContentInfo;
  comment_count : Z;
  like_count : Z;
  duration_in_microseconds : Z;
  duration : Z;
  article_point : Z
}.

Definition create_dt (r : Row) : Z := content_create_dt (row_instance r).

(** ORDER BY create_dt DESC *)
Definition by_create_dt_desc (x y : Row) : Prop :=
  create_dt y ≤ create_dt x.

(** ORDER BY article_point DESC, create_dt DESC *)
Definition by_article_point_desc (x y : Row) : Prop :=
  article_point y < article_point x ∨
  (article_point x = article_point y ∧ create_dt y ≤ create_dt x).

#[global] Instance by_create_dt_desc_dec : RelDecision by_create_dt_desc.
Proof. intros x y. unfold by_create_dt_desc. apply _. Defined.

#[global] Instance by_article_point_desc_dec : RelDecision by_article_point_desc.
Proof. intros x y. unfold by_article_point_desc. apply _. Defined.

(** ORDER BY create_dt ASC and DESC on comment rows *)
Definition comment_earliest (x y : orm.instance CommentInfo) : Prop :=
  comment_create_dt x.2 ≤ comment_create_dt y.2.

Definition comment_latest (x y : orm.instance CommentInfo) : Prop :=
  comment_create_dt y.2 ≤ comment_create_dt x.2.

#[global] Instance comment_earliest_dec : RelDecision comment_earliest.
Proof. intros x y. unfold comment_earliest. apply _. Defined.

#[global] Instance comment_latest_dec : RelDecision comment_latest.
Proof. intros x y. unfold comment_latest. apply _. Defined.

(** ** Requests *)

(** The query string of the list endpoints, as [query_params.get] reads it. *)
Record QueryParams := {
  order_by : option string;      (* order-by *)
  favorite_by : option string;   (* favorite-by *)
  liked_by : option string;      (* liked-by *)
  user : option string           (* user *)
}.

(** [request.user.id] ([None] for the anonymous user) and [request.data]. *)
Record Request := {
  request_user_id : option Z;
  request_data : columns
}.

(** ** ContentListAPIView *)

Module ContentListAPIView.

Definition annotate (now : Z) (g : orm.instance ContentInfo * list orm.join_row) : Row :=
  let comment_count := orm.Count fst g.2 in
  let like_count := orm.Count snd g.2 in
  let duration_in_microseconds :=
    orm.replace_microsecond_0 now - content_create_dt g.1.2 in
  let duration :=
    orm.FLOOR_div duration_in_microseconds (1000 * 1000 * 60 * 60 * 24) in
  let article_point := -5 * duration + 3 * comment_count + like_count in
  {| pk := g.1.1; row_instance := g.1.2;
     comment_count := comment_count; like_count := like_count;
     duration_in_microseconds := duration_in_microseconds;
     duration := duration; article_point := article_point |}.

(** The filtering part: which query the selectors pick. *)
Definition rows (db : DB) (query_params : QueryParams)
    : result (orm.QuerySet ContentInfo) :=
  let visible := λ r : orm.instance ContentInfo, content_is_visible r.2 = true in
  if truthy (favorite_by query_params) then
    let favorite_by := default "" (favorite_by query_params) in
    if isdecimal favorite_by then
      u ← orm.objects_get (users db) (int favorite_by);
      Ok (orm.qs_filter visible
            (orm.related_manager (contents db) orm.via_favorite_contents u))
    else Raise InvalidQueryParamsException
  else if truthy (liked_by query_params) then
    let liked_by := default "" (liked_by query_params) in
    if isdecimal liked_by then
      u ← orm.objects_get (users db) (int liked_by);
      Ok (orm.qs_filter visible
            (orm.related_manager (contents db) orm.via_liked_contents u))
    else Raise InvalidQueryParamsException
  else if truthy (user query_params) then
    let user := default "" (user query_params) in
    if isdecimal user then
      Ok (orm.qs_filter
            (λ r, visible r ∧ content_userinfo_id r.2 = int user)
            (orm.objects (contents db)))
    else Raise InvalidQueryParamsException
  else
    Ok (orm.qs_filter visible (orm.objects (contents db))).

Definition get_queryset (db : DB) (now : Z) (query_params : QueryParams)
    : result (list Row) :=
  rows ← rows db query_params;
  let rows := annotate now <$> orm.groups db rows in
  if bool_decide (order_by query_params = Some "new") then
    Ok (orm.order_by by_create_dt_desc rows)
  else
    Ok (orm.order_by by_article_point_desc rows).

(** [new_pk] is the primary key the database gives the inserted row. *)
Section post.
Variable ContentSerializer : CreateSerializer ContentInfo.

Definition post (new_pk : Z) (request : Request)
    : DB → (crash + result Response) * DB := λ db,
  if is_valid_data ContentSerializer (request_data request) then
    match request_user_id request with
    | Some id =>
        let validated := create ContentSerializer (request_data request) in
        let row :=
          {| content_userinfo_id := id;                 (* userinfo=request.user *)
             content_fields := content_fields validated;
             content_create_dt := content_create_dt validated;
             content_is_visible := true |} in           (* is_visible=True *)
        (inr (Ok {| status_code := HTTP_201_CREATED;
                    data := created_data ContentSerializer (new_pk, row) |}),
         set_contents (<[new_pk := row]> (contents db)) db)
    | None => (inl ValueError, db)
    end
  else (inr (Raise ValidationError), db).
End post.

End ContentListAPIView.

(** ** ContentDetailAPIView (the read part) *)

Module ContentDetailAPIView.

Definition get_row (db : DB) (content_id : Z) : result (orm.instance ContentInfo) :=
  orm.get_object_or_404 (contents db) content_id.

Definition annotate (now : Z) (g : orm.instance ContentInfo * list orm.join_row) : Row :=
  let comment_count := orm.Count fst g.2 in
  let like_count := orm.Count snd g.2 in
  let duration_in_microseconds :=
    orm.replace_microsecond_0 now - content_create_dt g.1.2 in
  let duration :=
    orm.FLOOR_div duration_in_microseconds (1000 * 1000 * 60 * 60 * 24) in
  let article_point := -5 * duration + 3 * comment_count + like_count in
  {| pk := g.1.1; row_instance := g.1.2;
     comment_count := comment_count; like_count := like_count;
     duration_in_microseconds := duration_in_microseconds;
     duration := duration; article_point := article_point |}.

Definition get_queryset (db : DB) (now : Z) (content_id : Z) : result (list Row) :=
  let row :=
    orm.qs_filter
      (λ r, r.1 = content_id ∧ content_is_visible r.2 = true)
      (orm.objects (contents db)) in
  if orm.qs_exists db row then
    Ok (annotate now <$> orm.groups db row)
  else
    Ok [].          (* ContentInfo.objects.none() *)

Section put.
Variable ContentSerializer : Serializer ContentInfo.

Definition put (request : Request) (content_id : Z) : view Response :=
  row ← try (λ db, get_row db content_id);
  if bool_decide (request_user_id request ≠ Some (content_userinfo_id row.2)) then
    mret {| status_code := HTTP_403_FORBIDDEN; data := [] |}
  else
    if is_valid ContentSerializer row.2 (request_data request) then
      let row' := (row.1, save ContentSerializer row.2 (request_data request)) in
      _ ← write (λ db, set_contents (<[row'.1 := row'.2]> (contents db)) db);
      mret {| status_code := HTTP_200_OK;
              data := serializer_data ContentSerializer row' |}
    else raise ValidationError.
End put.

Definition delete (request : Request) (content_id : Z) : view Response :=
  row ← try (λ db, get_row db content_id);
  if bool_decide (request_user_id request ≠ Some (content_userinfo_id row.2)) then
    mret {| status_code := HTTP_403_FORBIDDEN; data := [] |}
  else
    let row' :=
      {| content_userinfo_id := content_userinfo_id row.2;
         content_fields := content_fields row.2;
         content_create_dt := content_create_dt row.2;
         content_is_visible := false |} in
    _ ← write (λ db, set_contents (<[row.1 := row']> (contents db)) db);
    mret {| status_code := HTTP_204_NO_CONTENT; data := [] |}.

End ContentDetailAPIView.

(** ** CommentListAPIView *)

Module CommentListAPIView.

(** [content_id] is the URL keyword argument, absent on the global
    endpoint; [GET] is the query string. *)
Definition get_queryset (db : DB) (content_id : option Z) (GET : QueryParams)
    : result (list (orm.instance CommentInfo)) :=
  let visible := λ r : orm.instance CommentInfo, comment_is_visible r.2 = true in
  if bool_decide (is_Some content_id ∧ content_id ≠ Some 0) then
    let rows :=
      orm.qs_filter
        (λ r, Some (comment_contentinfo_id r.2) = content_id ∧ visible r)
        (orm.objects (comments db)) in
    Ok (orm.order_by comment_earliest (orm.fetch db rows))
  else
    rows ←
      (if truthy (liked_by GET) then
         let liked_by := default "" (liked_by GET) in
         if isdecimal liked_by then
           u ← orm.objects_get (users db) (int liked_by);
           Ok (orm.qs_filter visible
                 (orm.related_manager (comments db) orm.via_liked_comments u))
         else Raise InvalidQueryParamsException
       else if truthy (user GET) then
         let user := default "" (user GET) in
         if isdecimal user then
           Ok (orm.qs_filter
                 (λ r, visible r ∧ comment_userinfo_id r.2 = int user)
                 (orm.objects (comments db)))
         else Raise InvalidQueryParamsException
       else
         Ok (orm.qs_filter visible (orm.objects (comments db))));
    Ok (orm.order_by comment_latest (orm.fetch db rows)).

(** [new_pk] is the primary key the database gives the inserted row. *)
Section post.
Variable CommentSerializer : CreateSerializer CommentInfo.

Definition post (new_pk : Z) (request : Request) (content_id : Z)
    : DB → (crash + result Response) * DB := λ db,
  if is_valid_data CommentSerializer (request_data request) then
    match orm.objects_get (contents db) content_id with
    | Raise e => (inr (Raise e), db)
    | Ok contentinfo =>
        match request_user_id request with
        | Some id =>
            let validated := create CommentSerializer (request_data request) in
            let row :=
              {| comment_userinfo_id := id;
                 comment_contentinfo_id := contentinfo.1;
                 comment_fields := comment_fields validated;
                 comment_create_dt := comment_create_dt validated;
                 comment_is_visible := true |} in
            (inr (Ok {| status_code := HTTP_201_CREATED;
                        data := created_data CommentSerializer (new_pk, row) |}),
             set_comments (<[new_pk := row]> (comments db)) db)
        | None => (inl ValueError, db)
        end
    end
  else (inr (Raise ValidationError), db).
End post.

End CommentListAPIView.

(** ** CommentDetailAPIView *)

Module CommentDetailAPIView.

Definition get_row (db : DB) (comment_id : Z) : result (orm.instance CommentInfo) :=
  orm.get_object_or_404 (comments db) comment_id.

Section put.
Variable CommentSerializer : Serializer CommentInfo.

Definition put (request : Request) (comment_id : Z) : view Response :=
  row ← try (λ db, get_row db comment_id);
  if bool_decide (request_user_id request ≠ Some (comment_userinfo_id row.2)) then
    mret {| status_code := HTTP_403_FORBIDDEN; data := [] |}
  else
    if is_valid CommentSerializer row.2 (request_data request) then
      let row' := (row.1, save CommentSerializer row.2 (request_data request)) in
      _ ← write (λ db, set_comments (<[row'.1 := row'.2]> (comments db)) db);
      mret {| status_code := HTTP_202_ACCEPTED;
              data := serializer_data CommentSerializer row' |}
    else raise ValidationError.
End put.

Definition delete (request : Request) (comment_id : Z) : view Response :=
  row ← try (λ db, get_row db comment_id);
  if bool_decide (request_user_id request ≠ Some (comment_userinfo_id row.2)) then
    mret {| status_code := HTTP_403_FORBIDDEN; data := [] |}
  else
    let row' :=
      {| comment_userinfo_id := comment_userinfo_id row.2;
         comment_contentinfo_id := comment_contentinfo_id row.2;
         comment_fields := comment_fields row.2;
         comment_create_dt := comment_create_dt row.2;
         comment_is_visible := false |} in
    _ ← write (λ db, set_comments (<[row.1 := row']> (comments db)) db);
    mret {| status_code := HTTP_204_NO_CONTENT; data := [] |}.

End CommentDetailAPIView.

(** ** The toggles *)

Definition content_favorite (request : Request) (content_id : Z) : view Response :=
  match request_user_id request with
  | Some id =>                                  (* request.user.is_authenticated *)
      me ← try (λ db, orm.objects_get (users db) id);
      content ← try (λ db, orm.get_object_or_404 (contents db) content_id);
      favorite ← query (λ db,
        orm.qs_exists db
          (orm.qs_filter (λ r, r.1 = content_id)
             (orm.related_manager (contents db) orm.via_favorite_contents me)));
      if (favorite : bool) then
        _ ← write (λ db,
              set_favorite_contents (favorite_contents db ∖ {[ (me.1, content.1) ]}) db);
        mret {| status_code := HTTP_200_OK;
                data := [("message", VStr "Favorite content canceled.")] |}
      else
        _ ← write (λ db,
              set_favorite_contents ({[ (me.1, content.1) ]} ∪ favorite_contents db) db);
        mret {| status_code := HTTP_200_OK;
                data := [("message", VStr "Favorite content success.");
                         ("user", VStr (username me.2));
                         ("content_id", VInt content.1)] |}
  | None =>
      mret {| status_code := HTTP_403_FORBIDDEN; data := [] |}
  end.

Definition content_like (request : Request) (content_id : Z) : view Response :=
  match request_user_id request with
  | Some id =>
      me ← try (λ db, orm.objects_get (users db) id);
      content ← try (λ db, orm.get_object_or_404 (contents db) content_id);
      liked ← query (λ db,
        orm.qs_exists db
          (orm.qs_filter (λ r, r.1 = content_id)
             (orm.related_manager (contents db) orm.via_liked_contents me)));
      if (liked : bool) then
        _ ← write (λ db,
              set_liked_contents (liked_contents db ∖ {[ (me.1, content.1) ]}) db);
        mret {| status_code := HTTP_200_OK;
                data := [("message", VStr "Like content canceled.")] |}
      else
        _ ← write (λ db,
              set_liked_contents ({[ (me.1, content.1) ]} ∪ liked_contents db) db);
        mret {| status_code := HTTP_200_OK;
                data := [("message", VStr "Like content success.");
                         ("user", VStr (username me.2));
                         ("content_id", VInt content.1)] |}
  | None =>
      mret {| status_code := HTTP_403_FORBIDDEN; data := [] |}
  end.

Definition comment_like (request : Request) (comment_id : Z) : view Response :=
  match request_user_id request with
  | Some id =>
      me ← try (λ db, orm.objects_get (users db) id);
      comment ← try (λ db, orm.get_object_or_404 (comments db) comment_id);
      liked ← query (λ db,
        orm.qs_exists db
          (orm.qs_filter (λ r, r.1 = comment_id)
             (orm.related_manager (comments db) orm.via_liked_comments me)));
      if (liked : bool) then
        _ ← write (λ db,
              set_liked_comments (liked_comments db ∖ {[ (me.1, comment.1) ]}) db);
        mret {| status_code := HTTP_200_OK;
                data := [("message", VStr "Like comment canceled.")] |}
      else
        _ ← write (λ db,
              set_liked_comments ({[ (me.1, comment.1) ]} ∪ liked_comments db) db);
        mret {| status_code := HTTP_200_OK;
                data := [("message", VStr "Like comment success.");
                         ("user", VStr (username me.2));
                         ("content_id", VInt comment.1)] |}
  | None =>
      mret {| status_code := HTTP_403_FORBIDDEN; data := [] |}
  end.

(** * What the claims observe *)

(** What one annotated row holds, stated without the ORM functions. *)
Definition scored (now : Z) (r : Row) : Prop :=
  ∃ snapshot age_days : Z,
    snapshot `mod` 1000000 = 0 ∧
    snapshot ≤ now < snapshot + 1000000 ∧
    86400000000 * age_days ≤ snapshot - create_dt r < 86400000000 * (age_days + 1) ∧
    duration r = age_days ∧
    article_point r = -5 * age_days + 3 * comment_count r + like_count r.

(** C2 as the specification states it, for the rows of one answer: one
    snapshot, and every row scored by the exact floor of its age in days. *)
Definition every_row_scored_exactly (now : Z) (rows : list Row) : Prop :=
  ∃ snapshot : Z,
    snapshot `mod` 1000000 = 0 ∧
    snapshot ≤ now < snapshot + 1000000 ∧
    ∀ r, r ∈ rows →
      ∃ age_days : Z,
        86400000000 * age_days ≤ snapshot - create_dt r
          < 86400000000 * (age_days + 1) ∧
        article_point r = -5 * age_days + 3 * comment_count r + like_count r.

(** The counts C1 describes: the visible comments attached to a content
    row, and the users that like it. *)
Definition visible_comments (db : DB) (k : Z) : Z :=
  Z.of_nat (length
    (filter (λ m : Z * CommentInfo,
               comment_contentinfo_id m.2 = k ∧ comment_is_visible m.2 = true)
            (map_to_list (comments db)))).

Definition likes (db : DB) (k : Z) : Z :=
  Z.of_nat (size (filter (λ p : Z * Z, p.2 = k) (liked_contents db))).

(** What a response body holds under a key. *)
Fixpoint body_get (key : string) (d : list (string * value)) : option value :=
  match d with
  | [] => None
  | (k, v) :: d => if String.eqb k key then Some v else body_get key d
  end.

(** What a toggle response reports, read off its message: [what] is the
    relation's wording, as in "Like content success.". *)
Inductive report := success | canceled.

Definition opposite (r : report) : report :=
  match r with
  | success => canceled
  | canceled => success
  end.

Definition report_of (what : string) (r : result Response) : option report :=
  match r with
  | Ok resp =>
      match body_get "message" (data resp) with
      | Some (VStr m) =>
          if String.eqb m (what ++ " success.") then Some success
          else if String.eqb m (what ++ " canceled.") then Some canceled
          else None
      | _ => None
      end
  | Raise _ => None
  end.

(** A body with the three keys message, user and content_id. *)
Definition full_body (resp : Response) : Prop :=
  is_Some (body_get "message" (data resp)) ∧
  is_Some (body_get "user" (data resp)) ∧
  is_Some (body_get "content_id" (data resp)).

(** The reading of C7 under which every 200 response of a toggle has the
    full body. *)
Definition every_200_has_full_body (request : Request) (id : Z) (db : DB) : Prop :=
  ∀ resp,
    (content_favorite request id db).1 = Ok resp ∨
    (content_like request id db).1 = Ok resp ∨
    (comment_like request id db).1 = Ok resp →
    status_code resp = HTTP_200_OK → full_body resp.

(** The selector that decides the filter: the first one, in the order the
    view tests them, that is present and not empty. *)
Fixpoint selected (selectors : list (option string)) : option string :=
  match selectors with
  | [] => None
  | o :: selectors => if truthy o then o else selected selectors
  end.

(** The reading of C8 under which every supplied selector is validated. *)
Definition every_selector_validated (db : DB) (now : Z) (q : QueryParams) : Prop :=
  ∀ s, Some s ∈ [favorite_by q; liked_by q; user q] → isdecimal s = false →
       ContentListAPIView.get_queryset db now q = Raise InvalidQueryParamsException.


(** Whether the INNER JOIN of a related manager keeps content row [k]. *)
Definition joined (db : DB) (j : option (orm.related * Z)) (k : Z) : Prop :=
  match j with
  | None => True
  | Some (r, u) => (u, k) ∈ orm.through db r
  end.

(** The query the selectors of the global comment list pick. *)
Definition comment_rows (db : DB) (GET : QueryParams)
    : result (orm.QuerySet CommentInfo) :=
  let visible := λ r : Z * CommentInfo, comment_is_visible r.2 = true in
  if truthy (liked_by GET) then
    if isdecimal (default "" (liked_by GET)) then
      u ← orm.objects_get (users db) (int (default "" (liked_by GET)));
      Ok (orm.qs_filter visible
            (orm.related_manager (comments db) orm.via_liked_comments u))
    else Raise InvalidQueryParamsException
  else if truthy (user GET) then
    if isdecimal (default "" (user GET)) then
      Ok (orm.qs_filter
            (λ r, visible r ∧ comment_userinfo_id r.2 = int (default "" (user GET)))
            (orm.objects (comments db)))
    else Raise InvalidQueryParamsException
  else Ok (orm.qs_filter visible (orm.objects (comments db))).

(** * An example store

    Two users; three content rows, one of them soft-deleted; two visible
    comments on content 10 and one soft-deleted comment on content 11;
    user 1 has content 11 among the favorites; both users like content 10;
    user 2 likes comment 100. *)

Definition example_content (owner dt : Z) (visible : bool) : ContentInfo :=
  {| content_userinfo_id := owner; content_fields := [("title", "t")];
     content_create_dt := dt; content_is_visible := visible |}.

Definition example_comment (owner content dt : Z) (visible : bool) : CommentInfo :=
  {| comment_userinfo_id := owner; comment_contentinfo_id := content;
     comment_fields := [("content", "c")];
     comment_create_dt := dt; comment_is_visible := visible |}.

Definition example_db : DB :=
  {| users := list_to_map [(1, {| username := "ann" |}); (2, {| username := "bob" |})];
     contents :=
       list_to_map [(10, example_content 1 0 true);
                    (11, example_content 2 86400000000 true);
                    (12, example_content 1 5 false)];
     comments :=
       list_to_map [(100, example_comment 1 10 7 true);
                    (101, example_comment 2 10 8 true);
                    (102, example_comment 1 11 86400000009 false)];
     favorite_contents := {[ (1, 11) ]};
     liked_contents := {[ (1, 10); (2, 10) ]};
     liked_comments := {[ (2, 100) ]} |}.

(** Serializers that accept any payload but the empty one and replace the
    columns by the payload. *)
Definition example_content_serializer : Serializer ContentInfo :=
  {| is_valid := λ _ payload, bool_decide (payload ≠ []);
     save := λ row payload,
       {| content_userinfo_id := content_userinfo_id row;
          content_fields := payload;
          content_create_dt := content_create_dt row;
          content_is_visible := content_is_visible row |};
     serializer_data := λ row,
       ("id", VInt row.1) :: ((λ kv, (kv.1, VStr kv.2)) <$> content_fields row.2) |}.

Definition example_comment_serializer : Serializer CommentInfo :=
  {| is_valid := λ _ payload, bool_decide (payload ≠ []);
     save := λ row payload,
       {| comment_userinfo_id := comment_userinfo_id row;
          comment_contentinfo_id := comment_contentinfo_id row;
          comment_fields := payload;
          comment_create_dt := comment_create_dt row;
          comment_is_visible := comment_is_visible row |};
     serializer_data := λ row,
       ("id", VInt row.1) :: ((λ kv, (kv.1, VStr kv.2)) <$> comment_fields row.2) |}.

Definition no_params : QueryParams :=
  {| order_by := None; favorite_by := None; liked_by := None; user := None |}.

Definition request_of (id : Z) : Request :=
  {| request_user_id := Some id; request_data := [("title", "new")] |}.

(** A store with one content row, created one microsecond after the
    epoch, read 140000 days after the epoch: the row is one microsecond
    short of 140000 days old. *)
Definition example_old_db : DB :=
  set_contents {[ 1 := example_content 1 1 true ]} example_db.

Definition example_old_now : Z := 140000 * 86400000000.

(** Two days and half a second after the creation of content 10. *)
Definition example_now : Z := 172800500000.

Definition example_rows : list Row :=
  Eval vm_compute in
    match ContentListAPIView.get_queryset example_db example_now no_params with
    | Ok rows => rows
    | Raise _ => []
    end.

(** Content 10 as the detail lookup annotates it, at [example_now] and
    three days later. *)
Definition example_later : Z := example_now + 3 * 86400000000.

Definition example_row : Row :=
  Eval vm_compute in
    ContentDetailAPIView.annotate example_now
      ((10, example_content 1 0 true), orm.join_rows example_db None 10).

Definition example_row_later : Row :=
  Eval vm_compute in
    ContentDetailAPIView.annotate example_later
      ((10, example_content 1 0 true), orm.join_rows example_db None 10).

(** Serializers on [POST] that accept any payload but the empty one; the
    row they build is hidden and owned by user 0, with the payload as its
    columns and creation time 7. *)
Definition example_content_creator : CreateSerializer ContentInfo :=
  {| is_valid_data := λ payload, bool_decide (payload ≠ []);
     create := λ payload,
       {| content_userinfo_id := 0; content_fields := payload;
          content_create_dt := 7; content_is_visible := false |};
     created_data := λ row,
       ("id", VInt row.1) :: ((λ kv, (kv.1, VStr kv.2)) <$> content_fields row.2) |}.

Definition example_comment_creator : CreateSerializer CommentInfo :=
  {| is_valid_data := λ payload, bool_decide (payload ≠ []);
     create := λ payload,
       {| comment_userinfo_id := 0; comment_contentinfo_id := 0;
          comment_fields := payload;
          comment_create_dt := 7; comment_is_visible := false |};
     created_data := λ row,
       ("id", VInt row.1) :: ((λ kv, (kv.1, VStr kv.2)) <$> comment_fields row.2) |}.

(** Content 11 as the detail lookup annotates it, before and after user 2
    likes it. *)
Definition example_row_11 : Row :=
  Eval vm_compute in
    ContentDetailAPIView.annotate example_now
      ((11, example_content 2 86400000000 true), orm.join_rows example_db None 11).

Definition example_row_11_liked : Row :=
  Eval vm_compute in
    ContentDetailAPIView.annotate example_now
      ((11, example_content 2 86400000000 true),
       orm.join_rows (content_like (request_of 2) 11 example_db).2 None 11).

Definition params (favorite liked owner : option string) : QueryParams :=
  {| order_by := None; favorite_by := favorite; liked_by := liked; user := owner |}.

(** * Facts about the ORM fragment *)

Section orm_facts.

Lemma left_outer_not_nil {B} (l : list B) : orm.left_outer l ≠ [].
Proof. by destruct l. Qed.

Lemma list_prod_not_nil {A B} (l : list A) (k : list B) :
  l ≠ [] → k ≠ [] → list_prod l k ≠ [].
Proof. by destruct l, k. Qed.

(** Without a related manager's join every content row has a group. *)
Lemma join_rows_plain_not_nil db k : orm.join_rows db None k ≠ [].
Proof. apply list_prod_not_nil; apply left_outer_not_nil. Qed.

Lemma groups_plain db rows :
  orm.groups db {| orm.qs_rows := rows; orm.qs_join := None |} =
  (λ row, (row, orm.join_rows db None row.1)) <$> rows.
Proof.
  unfold orm.groups. cbn [orm.qs_rows orm.qs_join].
  induction rows as [|row rows IH]; [done|].
  rewrite bind_cons, fmap_cons, IH.
  pose proof (join_rows_plain_not_nil db row.1) as Hne.
  by destruct (orm.join_rows db None row.1).
Qed.

(** Every group belongs to a row of the query. *)
Lemma elem_of_groups db q g :
  g ∈ orm.groups db q → g.1 ∈ orm.qs_rows q.
Proof.
  unfold orm.groups. rewrite list_elem_of_bind. intros (row & Hg & Hrow).
  destruct (orm.join_rows db (orm.qs_join q) row.1); [by apply elem_of_nil in Hg|].
  apply list_elem_of_singleton in Hg. by subst g.
Qed.

(** A list without duplicates whose members all equal [x]. *)
Lemma NoDup_all_eq {A} (l : list A) (x : A) :
  NoDup l → (∀ y, y ∈ l → y = x) → x ∈ l → l = [x].
Proof.
  intros Hnd Hall Hin. destruct l as [|a l]; [by apply elem_of_nil in Hin|].
  assert (a = x) as -> by (apply Hall; left).
  destruct l as [|b l]; [done|].
  assert (b = x) as -> by (apply Hall; right; left).
  apply NoDup_cons in Hnd as [Hnot _]. destruct Hnot. left.
Qed.

(** Filtering a table with a condition that fixes the primary key. *)
Lemma filter_pk_Some {A} (Q : Z * A → Prop) `{∀ r, Decision (Q r)}
    (t : gmap Z A) (k : Z) (a : A) :
  (∀ r, Q r → r.1 = k) → t !! k = Some a → Q (k, a) →
  filter Q (map_to_list t) = [(k, a)].
Proof.
  intros Hpk Hk HQ. apply NoDup_all_eq.
  - apply NoDup_filter, NoDup_map_to_list.
  - intros [k' a']. rewrite list_elem_of_filter, elem_of_map_to_list.
    intros [HQ' Hk']. apply Hpk in HQ'. simpl in HQ'. congruence.
  - rewrite list_elem_of_filter, elem_of_map_to_list. done.
Qed.

Lemma filter_pk_nil {A} (Q : Z * A → Prop) `{∀ r, Decision (Q r)}
    (t : gmap Z A) (k : Z) :
  (∀ r, Q r → r.1 = k) → (∀ a, t !! k = Some a → ¬ Q (k, a)) →
  filter Q (map_to_list t) = [].
Proof.
  intros Hpk Hno. apply elem_of_nil_inv. intros [k' a'].
  rewrite list_elem_of_filter, elem_of_map_to_list.
  intros [HQ Hk']. pose proof (Hpk _ HQ) as Heq. simpl in Heq. subst k'.
  by apply (Hno a').
Qed.

End orm_facts.

(** * The orderings *)

#[global] Instance by_create_dt_desc_total : Total by_create_dt_desc.
Proof. intros x y. unfold by_create_dt_desc. lia. Qed.

#[global] Instance by_create_dt_desc_trans : Transitive by_create_dt_desc.
Proof. intros x y z. unfold by_create_dt_desc. lia. Qed.

#[global] Instance by_article_point_desc_total : Total by_article_point_desc.
Proof. intros x y. unfold by_article_point_desc. lia. Qed.

#[global] Instance by_article_point_desc_trans : Transitive by_article_point_desc.
Proof. intros x y z. unfold by_article_point_desc. lia. Qed.

Lemma elem_of_order_by {A} (R : relation A) `{∀ x y, Decision (R x y)}
    (l : list A) (x : A) :
  x ∈ orm.order_by R l ↔ x ∈ l.
Proof. unfold orm.order_by. by rewrite merge_sort_Permutation. Qed.

(** * Double-precision division

    [orm.true_divide] rounds the exact quotient to the nearest double.
    Rounding is monotone, and a quotient by a day's microseconds that is
    below 2^17 is never rounded up to the next integer. *)

Section double_facts.

Local Open Scope Q_scope.

Lemma pow2_pos e : 0 < orm.pow2 e.
Proof. apply Qpower_0_lt. reflexivity. Qed.

Lemma pow2_add a b : orm.pow2 (a + b) == orm.pow2 a * orm.pow2 b.
Proof. apply Qpower_plus. discriminate. Qed.

Lemma pow2_le a b : (a ≤ b)%Z → orm.pow2 a <= orm.pow2 b.
Proof. intros. apply Qpower_le_compat_l; [done|]. discriminate. Qed.

Lemma pow2_lt_inv a b : orm.pow2 a < orm.pow2 b → (a < b)%Z.
Proof. intros H. apply (Qpower_lt_compat_l_inv 2); [done|reflexivity]. Qed.

Lemma pow2_Z k : (0 ≤ k)%Z → orm.pow2 k == inject_Z (2 ^ k).
Proof. intros. unfold orm.pow2. by rewrite Zpower_Qpower. Qed.

Lemma round_half_even_floor x :
  (Qfloor x ≤ orm.round_half_even x ≤ Qfloor x + 1)%Z.
Proof.
  unfold orm.round_half_even.
  destruct (Qcompare _ _); [destruct (Z.even _)|..]; lia.
Qed.

Lemma round_half_even_lower x k : inject_Z k <= x → (k ≤ orm.round_half_even x)%Z.
Proof.
  intros H. apply Qfloor_resp_le in H. rewrite Qfloor_Z in H.
  pose proof (round_half_even_floor x). lia.
Qed.

Lemma round_half_even_upper x k : x <= inject_Z k → (orm.round_half_even x ≤ k)%Z.
Proof.
  intros H. pose proof (Qfloor_resp_le _ _ H) as Hf. rewrite Qfloor_Z in Hf.
  destruct (Z.eq_dec (Qfloor x) k) as [Heq|Hne].
  - unfold orm.round_half_even. rewrite Heq.
    pose proof (Qfloor_le x) as Hle. rewrite Heq in Hle.
    destruct (Qcompare_spec (x - inject_Z k) (1 # 2)) as [He|Hl|Hg]; [lra|lia|lra].
  - pose proof (round_half_even_floor x). lia.
Qed.

Lemma round_half_even_error x :
  x - (1 # 2) <= inject_Z (orm.round_half_even x) <= x + (1 # 2).
Proof.
  pose proof (Qfloor_le x) as Hlo. pose proof (Qlt_floor x) as Hhi.
  rewrite inject_Z_plus in Hhi. change (inject_Z 1) with 1 in Hhi.
  unfold orm.round_half_even.
  destruct (Qcompare_spec (x - inject_Z (Qfloor x)) (1 # 2)) as [He|Hl|Hg];
    [destruct (Z.even _)|..];
    rewrite ?inject_Z_plus; change (inject_Z 1) with 1; lra.
Qed.

Lemma round_half_even_mono x y :
  x <= y → (orm.round_half_even x ≤ orm.round_half_even y)%Z.
Proof.
  intros Hxy. pose proof (Qfloor_resp_le _ _ Hxy) as Hf.
  destruct (Z.eq_dec (Qfloor x) (Qfloor y)) as [Heq|Hne].
  - unfold orm.round_half_even. rewrite Heq.
    destruct (Qcompare_spec (x - inject_Z (Qfloor y)) (1 # 2)) as [He|Hl|Hg];
      destruct (Qcompare_spec (y - inject_Z (Qfloor y)) (1 # 2)) as [He'|Hl'|Hg'];
      try destruct (Z.even _); try lia; lra.
  - pose proof (round_half_even_floor x). pose proof (round_half_even_floor y).
    lia.
Qed.

Lemma pow2_succ e : orm.pow2 (e + 1) == 2 * orm.pow2 e.
Proof. rewrite pow2_add. change (orm.pow2 1) with 2. lra. Qed.

Lemma pow2_log2 n :
  (0 < n)%Z → orm.pow2 (Z.log2 n) <= inject_Z n < orm.pow2 (Z.log2 n + 1).
Proof.
  intros Hn. destruct (Z.log2_spec n Hn) as [Hlo Hhi].
  pose proof (Z.log2_nonneg n).
  rewrite !pow2_Z by lia. rewrite <- Zle_Qle, <- Zlt_Qlt. split; [done|].
  by replace (Z.log2 n + 1)%Z with (Z.succ (Z.log2 n)) by lia.
Qed.

Lemma binade_spec x :
  0 < x → orm.pow2 (orm.binade x) <= x < orm.pow2 (orm.binade x + 1).
Proof.
  destruct x as [n d]. intros Hx.
  assert (0 < n)%Z as Hn by (unfold Qlt in Hx; simpl in Hx; lia).
  pose proof (pow2_log2 n Hn) as [Hn0 Hn1].
  pose proof (pow2_log2 (Z.pos d) ltac:(lia)) as [Hd0 Hd1].
  rewrite pow2_succ in Hn1, Hd1.
  pose proof (pow2_add (Z.log2 n - Z.log2 (Z.pos d)) (Z.log2 (Z.pos d))) as He.
  replace (Z.log2 n - Z.log2 (Z.pos d) + Z.log2 (Z.pos d))%Z
    with (Z.log2 n) in He by lia.
  pose proof (pow2_pos (Z.log2 (Z.pos d))) as Hpd.
  pose proof (pow2_pos (Z.log2 n - Z.log2 (Z.pos d))) as Hpe.
  assert ((n # d) * inject_Z (Z.pos d) == inject_Z n) as Hq.
  { rewrite (Qmake_Qdiv n d). field. intros H0.
    apply (inject_Z_injective (Z.pos d) 0) in H0. lia. }
  unfold orm.binade. simpl Qnum. simpl Qden.
  set (e := (Z.log2 n - Z.log2 (Z.pos d))%Z) in *.
  set (x := n # d) in *.
  destruct (Qle_bool (orm.pow2 e) x) eqn:Hb.
  - apply Qle_bool_iff in Hb. split; [done|].
    rewrite pow2_succ. nra.
  - assert (x < orm.pow2 e) as Hlt.
    { apply Qnot_le_lt. intros Hle. apply Qle_bool_iff in Hle. congruence. }
    replace (e - 1 + 1)%Z with e by lia. split; [|done].
    pose proof (pow2_succ (e - 1)) as Hs.
    replace (e - 1 + 1)%Z with e in Hs by lia.
    nra.
Qed.

Lemma binade_unique x e :
  0 < x → orm.pow2 e <= x < orm.pow2 (e + 1) → orm.binade x = e.
Proof.
  intros Hx [Hlo Hhi]. destruct (binade_spec x Hx) as [Hlo' Hhi'].
  assert (orm.pow2 e < orm.pow2 (orm.binade x + 1)) as H1 by lra.
  assert (orm.pow2 (orm.binade x) < orm.pow2 (e + 1)) as H2 by lra.
  apply pow2_lt_inv in H1, H2. lia.
Qed.

Lemma binade_mono x y : 0 < x → x <= y → (orm.binade x ≤ orm.binade y)%Z.
Proof.
  intros Hx Hxy. destruct (binade_spec x Hx) as [Hlo _].
  destruct (binade_spec y ltac:(lra)) as [_ Hhi].
  assert (orm.pow2 (orm.binade x) < orm.pow2 (orm.binade y + 1)) as H by lra.
  apply pow2_lt_inv in H. lia.
Qed.

Lemma Qdiv_mul x u : 0 < u → x / u * u == x.
Proof. intros. field. lra. Qed.

Lemma pow2_binade x : orm.pow2 (orm.binade x) == orm.pow2 52 * orm.pow2 (orm.binade x - 52).
Proof. rewrite <- pow2_add. by replace (52 + (orm.binade x - 52))%Z with (orm.binade x) by lia. Qed.

Lemma nearest_double_bounds x :
  0 < x → orm.pow2 (orm.binade x) <= orm.nearest_double x <= orm.pow2 (orm.binade x + 1).
Proof.
  intros Hx. destruct (binade_spec x Hx) as [Hlo Hhi].
  rewrite pow2_succ in *. rewrite pow2_binade in *.
  unfold orm.nearest_double. cbv zeta.
  pose proof (pow2_pos (orm.binade x - 52)) as Hu.
  pose proof (Qdiv_mul x _ Hu) as Hy.
  set (u := orm.pow2 (orm.binade x - 52)) in *. set (y := x / u) in *.
  assert (inject_Z (2 ^ 52) <= y) as H52.
  { rewrite <- pow2_Z by lia. nra. }
  assert (y <= inject_Z (2 ^ 53)) as H53.
  { rewrite <- pow2_Z by lia. change (orm.pow2 53) with (2 * orm.pow2 52). nra. }
  apply round_half_even_lower in H52. apply round_half_even_upper in H53.
  rewrite Zle_Qle in H52, H53. rewrite <- !pow2_Z in H52, H53 by lia.
  change (orm.pow2 53) with (2 * orm.pow2 52) in H53. nra.
Qed.

Lemma nearest_double_error x :
  0 < x →
  x - orm.pow2 (orm.binade x - 53) <= orm.nearest_double x <= x + orm.pow2 (orm.binade x - 53).
Proof.
  intros Hx. unfold orm.nearest_double. cbv zeta.
  pose proof (pow2_succ (orm.binade x - 53)) as Hs.
  replace (orm.binade x - 53 + 1)%Z with (orm.binade x - 52)%Z in Hs by lia.
  pose proof (pow2_pos (orm.binade x - 53)) as Hh.
  pose proof (pow2_pos (orm.binade x - 52)) as Hu.
  pose proof (Qdiv_mul x _ Hu) as Hy.
  set (u := orm.pow2 (orm.binade x - 52)) in *. set (y := x / u) in *.
  pose proof (round_half_even_error y) as [He0 He1]. nra.
Qed.

Lemma nearest_double_mono x y :
  0 < x → x <= y → orm.nearest_double x <= orm.nearest_double y.
Proof.
  intros Hx Hxy. assert (0 < y) as Hy by lra.
  pose proof (binade_mono x y Hx Hxy) as Hb.
  destruct (Z.eq_dec (orm.binade x) (orm.binade y)) as [Heq|Hne].
  - unfold orm.nearest_double. cbv zeta. rewrite Heq.
    pose proof (pow2_pos (orm.binade y - 52)) as Hu.
    apply Qmult_le_compat_r; [|lra].
    rewrite <- Zle_Qle. apply round_half_even_mono.
    apply Qmult_le_compat_r; [done|]. apply Qlt_le_weak, Qinv_lt_0_compat, Hu.
  - destruct (nearest_double_bounds x Hx) as [_ H1].
    destruct (nearest_double_bounds y Hy) as [H2 _].
    pose proof (pow2_le (orm.binade x + 1) (orm.binade y) ltac:(lia)). lra.
Qed.

Lemma nearest_double_pos x : 0 < x → 0 < orm.nearest_double x.
Proof.
  intros Hx. destruct (nearest_double_bounds x Hx) as [H _].
  pose proof (pow2_pos (orm.binade x)). lra.
Qed.

(** Below 2^53 every integer is a double: rounding does not cross one. *)
Lemma nearest_double_integer x k :
  0 < x → x < orm.pow2 53 →
  (inject_Z k <= x → inject_Z k <= orm.nearest_double x) ∧
  (x <= inject_Z k → orm.nearest_double x <= inject_Z k).
Proof.
  intros Hx H53. destruct (binade_spec x Hx) as [Hlo _].
  assert (orm.binade x < 53)%Z as Hb by (apply pow2_lt_inv; lra).
  unfold orm.nearest_double. cbv zeta.
  pose proof (pow2_pos (orm.binade x - 52)) as Hu.
  pose proof (Qdiv_mul x _ Hu) as Hy.
  pose proof (pow2_add (orm.binade x - 52) (52 - orm.binade x)) as Hinv.
  replace (orm.binade x - 52 + (52 - orm.binade x))%Z with 0%Z in Hinv by lia.
  change (orm.pow2 0) with 1 in Hinv.
  rewrite (pow2_Z (52 - orm.binade x)) in Hinv by lia.
  set (u := orm.pow2 (orm.binade x - 52)) in *. set (y := x / u) in *.
  set (c := (2 ^ (52 - orm.binade x))%Z) in *.
  split; intros Hk.
  - assert (inject_Z (k * c) <= y) as H.
    { rewrite inject_Z_mult. nra. }
    apply round_half_even_lower in H. rewrite Zle_Qle, inject_Z_mult in H. nra.
  - assert (y <= inject_Z (k * c)) as H.
    { rewrite inject_Z_mult. nra. }
    apply round_half_even_upper in H. rewrite Zle_Qle, inject_Z_mult in H. nra.
Qed.

Lemma true_divide_mono a1 a2 b :
  (0 < b)%Z → (a1 ≤ a2)%Z → orm.true_divide a1 b <= orm.true_divide a2 b.
Proof.
  intros Hb Ha. unfold orm.true_divide.
  assert (∀ a, (0 < a)%Z → 0 < a # Z.to_pos b) as Hpos.
  { intros a H. unfold Qlt. simpl. lia. }
  assert (∀ a a', (a ≤ a')%Z → a # Z.to_pos b <= a' # Z.to_pos b) as Hle.
  { intros a a' H. unfold Qle. simpl. nia. }
  destruct (Z.compare_spec a1 0) as [H1|H1|H1];
    destruct (Z.compare_spec a2 0) as [H2|H2|H2]; try lia; try lra.
  - pose proof (nearest_double_pos _ (Hpos a2 H2)). lra.
  - pose proof (nearest_double_pos _ (Hpos (- a1)%Z ltac:(lia))). lra.
  - pose proof (nearest_double_mono (- a2 # Z.to_pos b) (- a1 # Z.to_pos b)
                  (Hpos (- a2)%Z ltac:(lia)) (Hle (- a2)%Z (- a1)%Z ltac:(lia))). lra.
  - pose proof (nearest_double_pos _ (Hpos (- a1)%Z ltac:(lia))).
    pose proof (nearest_double_pos _ (Hpos a2 H2)). lra.
  - apply nearest_double_mono; auto.
Qed.

(** The floor is monotone in the duration, rounded quotient or not. *)
Lemma FLOOR_div_mono a1 a2 b :
  (0 < b)%Z → (a1 ≤ a2)%Z → (orm.FLOOR_div a1 b ≤ orm.FLOOR_div a2 b)%Z.
Proof. intros. by apply Qfloor_resp_le, true_divide_mono. Qed.

Lemma Qfloor_unique x n :
  inject_Z n <= x → x < inject_Z (n + 1) → Qfloor x = n.
Proof.
  intros Hlo Hhi. apply Qfloor_resp_le in Hlo. rewrite Qfloor_Z in Hlo.
  pose proof (Qfloor_le x) as Hf.
  assert (inject_Z (Qfloor x) < inject_Z (n + 1)) as Hlt by lra.
  rewrite <- Zlt_Qlt in Hlt. lia.
Qed.

(** Below 2^17 the doubles are at most 2^-36 apart, so that a quotient
    by a divisor below 2^37 is rounded by less than 1/b, which is how far
    a quotient that is not an integer lies from the integers around it:
    the floor of the double is the floor of the exact quotient. *)
Lemma nearest_double_near a b :
  (0 < b < 2 ^ 37)%Z → (0 < a < 2 ^ 17 * b)%Z →
  let x := a # Z.to_pos b in
  0 < x ∧ x < orm.pow2 53 ∧ x * inject_Z b == inject_Z a ∧
  (orm.nearest_double x - x) * inject_Z b < 1 ∧
  (x - orm.nearest_double x) * inject_Z b < 1.
Proof.
  intros Hb Ha x.
  assert (0 < x) as Hx by (unfold x, Qlt; simpl; lia).
  assert (0 < inject_Z b) as HB by (rewrite <- (Zlt_Qlt 0); lia).
  assert (inject_Z b < 137438953472) as HB37.
  { change 137438953472 with (inject_Z (2 ^ 37)). rewrite <- Zlt_Qlt. lia. }
  assert (x * inject_Z b == inject_Z a) as Hq.
  { unfold x. rewrite (Qmake_Qdiv a), Z2Pos.id by lia. field. lra. }
  assert (inject_Z a < 131072 * inject_Z b) as HA.
  { change 131072 with (inject_Z (2 ^ 17)).
    rewrite <- inject_Z_mult, <- Zlt_Qlt. lia. }
  assert (x < 131072) as H17 by nra.
  destruct (binade_spec x Hx) as [Hlo _].
  assert (orm.binade x < 17)%Z as He.
  { apply pow2_lt_inv. change (orm.pow2 17) with 131072. lra. }
  destruct (nearest_double_error x Hx) as [He0 He1].
  pose proof (pow2_le (orm.binade x - 53) (-37) ltac:(lia)) as Hh.
  change (orm.pow2 (-37)) with (1 # 137438953472) in Hh.
  pose proof (pow2_pos (orm.binade x - 53)) as Hhp.
  set (h := orm.pow2 (orm.binade x - 53)) in *.
  set (y := orm.nearest_double x) in *.
  assert (h * inject_Z b < 1) as Hhb by nra.
  change (orm.pow2 53) with 9007199254740992.
  repeat split; try done; nra.
Qed.

Lemma FLOOR_div_exact a b :
  (0 < b < 2 ^ 37)%Z → (- (2 ^ 17 * b) < a < 2 ^ 17 * b)%Z →
  orm.FLOOR_div a b = (a / b)%Z.
Proof.
  intros Hb Ha. unfold orm.FLOOR_div, orm.true_divide.
  pose proof (Z.div_mod a b ltac:(lia)) as Hdm.
  pose proof (Z.mod_pos_bound a b ltac:(lia)) as Hmb.
  assert (0 < inject_Z b) as HB by (rewrite <- (Zlt_Qlt 0); lia).
  destruct (Z.compare_spec a 0) as [H0|H0|H0].
  - subst a. by rewrite Z.div_0_l by lia.
  - destruct (nearest_double_near (- a) b Hb ltac:(lia))
      as (Hx & H53 & Hq & _ & Herr).
    destruct (nearest_double_integer _ (- (a / b)) Hx H53) as [_ Hup].
    assert (inject_Z (- a) <= inject_Z (- (a / b)) * inject_Z b) as H1.
    { rewrite <- inject_Z_mult, <- Zle_Qle. nia. }
    assert (inject_Z ((- (a / b) + -1) * b + 1) <= inject_Z (- a)) as H2.
    { rewrite <- Zle_Qle. nia. }
    rewrite inject_Z_plus, inject_Z_mult, inject_Z_plus in H2.
    rewrite !inject_Z_opp in *.
    change (inject_Z 1) with 1 in *. change (inject_Z (-1)) with (-1) in *.
    set (x := (- a # Z.to_pos b)) in *. set (y := orm.nearest_double x) in *.
    apply Qfloor_unique.
    + assert (x <= - inject_Z (a / b)) as Hk by nra. apply Hup in Hk. lra.
    + rewrite inject_Z_plus. change (inject_Z 1) with 1. nra.
  - destruct (nearest_double_near a b Hb ltac:(lia))
      as (Hx & H53 & Hq & Herr & _).
    destruct (nearest_double_integer _ (a / b) Hx H53) as [Hdown _].
    assert (inject_Z (a / b) * inject_Z b <= inject_Z a) as H1.
    { rewrite <- inject_Z_mult, <- Zle_Qle. nia. }
    assert (inject_Z (a + 1) <= inject_Z ((a / b + 1) * b)) as H2.
    { rewrite <- Zle_Qle. nia. }
    rewrite inject_Z_mult, !inject_Z_plus in H2.
    change (inject_Z 1) with 1 in *.
    set (x := (a # Z.to_pos b)) in *. set (y := orm.nearest_double x) in *.
    apply Qfloor_unique.
    + assert (inject_Z (a / b) <= x) as Hk by nra. by apply Hdown.
    + rewrite inject_Z_plus. change (inject_Z 1) with 1. nra.
Qed.

End double_facts.

(** The bound is the first power of two of days: one microsecond short of
    131072 days the floor is exact, one microsecond short of 131073 days
    the quotient is rounded up to the day. *)
Lemma FLOOR_div_rounds_up :
  orm.FLOOR_div (131072 * 86400000000 - 1) 86400000000 = 131071 ∧
  orm.FLOOR_div (131073 * 86400000000 - 1) 86400000000 = 131073 ∧
  orm.FLOOR_div (- (131073 * 86400000000) + 1) 86400000000 = - 131073.
Proof. by vm_compute. Qed.

(** * The annotations *)

(** The two content views carry their own copy of the annotation chain;
    the copies compute the same row. *)
Lemma annotate_same :
  ContentListAPIView.annotate = ContentDetailAPIView.annotate.
Proof. reflexivity. Qed.

Lemma annotate_scored now g :
  - (131072 * 86400000000)
    < orm.replace_microsecond_0 now - content_create_dt g.1.2
    < 131072 * 86400000000 →
  scored now (ContentListAPIView.annotate now g).
Proof.
  intros Hbound.
  exists (orm.replace_microsecond_0 now),
    ((orm.replace_microsecond_0 now - content_create_dt g.1.2) `div` 86400000000).
  unfold scored, create_dt. simpl.
  change (1000 * 1000 * 60 * 60 * 24) with 86400000000.
  rewrite FLOOR_div_exact by lia.
  unfold orm.replace_microsecond_0 in *.
  pose proof (Z.mod_pos_bound now 1000000 ltac:(lia)) as Hm.
  pose proof (Z.div_mod now 1000000 ltac:(lia)) as Hd.
  set (e := now - now `mod` 1000000 - content_create_dt g.1.2) in *.
  pose proof (Z.mod_pos_bound e 86400000000 ltac:(lia)) as Hm'.
  pose proof (Z.div_mod e 86400000000 ltac:(lia)) as Hd'.
  repeat split; try lia.
  replace (now - now `mod` 1000000) with (now `div` 1000000 * 1000000) by lia.
  apply Z.mod_mul. lia.
Qed.

(** The rows of the list view are annotated groups, whatever the order. *)
Lemma list_rows_annotated db now query_params rows r :
  ContentListAPIView.get_queryset db now query_params = Ok rows →
  r ∈ rows →
  ∃ q g, ContentListAPIView.rows db query_params = Ok q ∧
         g ∈ orm.groups db q ∧ r = ContentListAPIView.annotate now g.
Proof.
  unfold ContentListAPIView.get_queryset.
  destruct (ContentListAPIView.rows db query_params) as [q|e]; simpl; [|done].
  case_bool_decide; intros [= <-]; rewrite elem_of_order_by, list_elem_of_fmap;
    intros (g & -> & Hg); eauto.
Qed.

Lemma detail_rows_annotated db now content_id rows r :
  ContentDetailAPIView.get_queryset db now content_id = Ok rows →
  r ∈ rows →
  ∃ g, g.1.1 = content_id ∧ content_is_visible g.1.2 = true ∧
       contents db !! content_id = Some g.1.2 ∧
       r = ContentDetailAPIView.annotate now g.
Proof.
  unfold ContentDetailAPIView.get_queryset.
  destruct (orm.qs_exists _ _); intros [= <-]; [|by intros ?%elem_of_nil].
  rewrite list_elem_of_fmap. intros (g & -> & Hg).
  apply elem_of_groups in Hg. simpl in Hg.
  apply list_elem_of_filter in Hg as [[Hpk Hvis] Hin].
  apply elem_of_map_to_list' in Hin. rewrite Hpk in Hin. eauto.
Qed.

(** C2, counterexample: the day count is the floor of a double-precision
    quotient.  One microsecond short of 140000 days the quotient rounds to
    140000.0: both views score the row with 140000 days, -700000 points,
    where the floor of its age is 139999 days and the formula gives
    -699995. *)
Lemma article_point_rounded_quotient :
  ∃ r, ContentListAPIView.get_queryset example_old_db example_old_now no_params
         = Ok [r] ∧
       ContentDetailAPIView.get_queryset example_old_db example_old_now 1
         = Ok [r] ∧
       duration r = 140000 ∧ article_point r = -700000 ∧
       ¬ every_row_scored_exactly example_old_now [r].
Proof.
  eexists. split; [vm_compute; reflexivity|].
  split; [vm_compute; reflexivity|].
  split; [reflexivity|]. split; [reflexivity|].
  intros (snapshot & Hmod & Hnow & Hrows).
  destruct (Hrows _ (list_elem_of_here _ _)) as (age_days & Hage & Hpoint).
  unfold example_old_now in Hnow. unfold create_dt in Hage. simpl in Hage, Hpoint.
  pose proof (Z.div_mod snapshot 1000000 ltac:(lia)) as Hs.
  rewrite Hmod in Hs. lia.
Qed.

(** C2, as the code has it: every row returned by the content list or by
    the content detail lookup whose creation time lies less than 131072
    days (2^17 days, about 359 years) from the snapshot carries
    article_point = -5 * age_days + 3 * comment_count + like_count, where
    age_days is the floor, in whole days, of the time from the row's
    creation to one snapshot of now truncated to whole seconds; the
    snapshot and the rule are the same in the two views. *)
Theorem article_point_exact db now query_params content_id rows :
  ContentListAPIView.get_queryset db now query_params = Ok rows ∨
  ContentDetailAPIView.get_queryset db now content_id = Ok rows →
  ∃ snapshot : Z,
    snapshot `mod` 1000000 = 0 ∧
    snapshot ≤ now < snapshot + 1000000 ∧
    ∀ r, r ∈ rows →
      - (131072 * 86400000000) < snapshot - create_dt r
        < 131072 * 86400000000 →
      ∃ age_days : Z,
        86400000000 * age_days ≤ snapshot - create_dt r
          < 86400000000 * (age_days + 1) ∧
        article_point r = -5 * age_days + 3 * comment_count r + like_count r.
Proof.
  intros Hrows.
  assert (∀ r, r ∈ rows →
            - (131072 * 86400000000)
              < orm.replace_microsecond_0 now - create_dt r
              < 131072 * 86400000000 →
            scored now r) as Hscored.
  { intros r Hr. destruct Hrows as [Hl|Hd].
    - destruct (list_rows_annotated _ _ _ _ _ Hl Hr) as (q & g & _ & _ & ->).
      apply annotate_scored.
    - destruct (detail_rows_annotated _ _ _ _ _ Hd Hr) as (g & _ & _ & _ & ->).
      rewrite <- annotate_same. apply annotate_scored. }
  exists (now - now `mod` 1000000).
  pose proof (Z.mod_pos_bound now 1000000 ltac:(lia)) as Hm.
  pose proof (Z.div_mod now 1000000 ltac:(lia)) as Hd.
  split; [|split; [lia|]].
  { replace (now - now `mod` 1000000) with (now `div` 1000000 * 1000000) by lia.
    apply Z.mod_mul. lia. }
  intros r Hr Hbound.
  destruct (Hscored r Hr Hbound) as (s & a & Hs0 & Hs1 & Ha & _ & Hp).
  assert (s = now - now `mod` 1000000) as ->.
  { pose proof (Z.div_mod s 1000000 ltac:(lia)) as Hs.
    rewrite Hs0 in Hs.
    assert (s `div` 1000000 = now `div` 1000000) by nia. lia. }
  eauto.
Qed.

(** The snapshot is truncated and the creation time is not: a row created
    in the second of the query, after the snapshot, is annotated with
    duration = -1 and gains five points. *)
Lemma duration_in_first_second :
  let db := set_contents {[ 1 := example_content 1 500000 true ]} example_db in
  ∃ r, ContentDetailAPIView.get_queryset db 900000 1 = Ok [r] ∧
       duration r = -1 ∧ article_point r = 5.
Proof. cbv zeta. eexists. split; [vm_compute; reflexivity|done]. Qed.

(** Ordering keeps the rows: in either mode the list is a permutation of
    the annotated groups of the selected query. *)
Lemma list_rows_permutation db now query_params rows :
  ContentListAPIView.get_queryset db now query_params = Ok rows →
  ∃ q, ContentListAPIView.rows db query_params = Ok q ∧
       rows ≡ₚ ContentListAPIView.annotate now <$> orm.groups db q.
Proof.
  unfold ContentListAPIView.get_queryset.
  destruct (ContentListAPIView.rows db query_params) as [q|e]; simpl; [|done].
  case_bool_decide; intros [= <-]; exists q; split; try done;
    unfold orm.order_by; apply merge_sort_Permutation.
Qed.

(** C3: with order-by=new the list is in descending order of creation
    time; with any other value, or none, it is in descending order of
    article_point, rows of equal article_point in descending order of
    creation time. *)
Theorem list_order db now query_params rows :
  ContentListAPIView.get_queryset db now query_params = Ok rows →
  (order_by query_params = Some "new" →
     StronglySorted (λ x y, create_dt y ≤ create_dt x) rows) ∧
  (order_by query_params ≠ Some "new" →
     StronglySorted
       (λ x y, article_point y < article_point x ∨
               (article_point x = article_point y ∧ create_dt y ≤ create_dt x))
       rows).
Proof.
  unfold ContentListAPIView.get_queryset.
  destruct (ContentListAPIView.rows db query_params) as [q|e]; simpl; [|done].
  case_bool_decide; intros [= <-]; split; intros Hmode; try done.
  - apply (StronglySorted_merge_sort by_create_dt_desc).
  - apply (StronglySorted_merge_sort by_article_point_desc).
Qed.

(** C5: the detail lookup never raises; it is empty when the id is not in
    the table or its row is not visible, and holds exactly the annotated
    row of the id when the row exists and is visible. *)
Theorem detail_lookup db now content_id :
  (contents db !! content_id = None ∨
   (∃ c, contents db !! content_id = Some c ∧ content_is_visible c = false) →
   ContentDetailAPIView.get_queryset db now content_id = Ok []) ∧
  (∀ c, contents db !! content_id = Some c → content_is_visible c = true →
     ∃ r, ContentDetailAPIView.get_queryset db now content_id = Ok [r] ∧
          pk r = content_id ∧ row_instance r = c) ∧
  (∀ rows r, ContentDetailAPIView.get_queryset db now content_id = Ok rows →
     r ∈ rows →
     pk r = content_id ∧ contents db !! content_id = Some (row_instance r) ∧
     content_is_visible (row_instance r) = true) ∧
  (∃ rows, ContentDetailAPIView.get_queryset db now content_id = Ok rows).
Proof.
  split; [|split; [|split]].
  - intros Hgone. unfold ContentDetailAPIView.get_queryset, orm.qs_exists.
    unfold orm.qs_filter, orm.objects, orm.fetch. simpl.
    rewrite (filter_pk_nil _ _ content_id); [done|by intros r [? _]|].
    intros a Ha [_ Hvis]. simpl in Hvis.
    destruct Hgone as [Hn|(c & Hc & Hinv)]; congruence.
  - intros c Hc Hvis. unfold ContentDetailAPIView.get_queryset, orm.qs_exists.
    unfold orm.qs_filter, orm.objects, orm.fetch. simpl.
    rewrite (filter_pk_Some _ _ content_id c); [|by intros r [? _]|done|done].
    rewrite groups_plain. simpl. eauto.
  - intros rows r Hrows Hr.
    destruct (detail_rows_annotated _ _ _ _ _ Hrows Hr) as (g & Hpk & Hvis & Hc & ->).
    done.
  - unfold ContentDetailAPIView.get_queryset. destruct (orm.qs_exists _ _); eauto.
Qed.

(** * The toggles *)

Section toggle_facts.

Lemma through_rows_nil db rel u k :
  (u, k) ∉ orm.through db rel → orm.through_rows db rel u k = [].
Proof.
  intros Hnot. apply elem_of_nil_inv. intros p.
  unfold orm.through_rows. rewrite list_elem_of_filter, elem_of_elements.
  intros [-> Hin]. done.
Qed.

Lemma through_rows_not_nil db rel u k :
  (u, k) ∈ orm.through db rel → orm.through_rows db rel u k ≠ [].
Proof.
  intros Hin Hnil.
  assert ((u, k) ∈ orm.through_rows db rel u k) as Hel.
  { unfold orm.through_rows. by rewrite list_elem_of_filter, elem_of_elements. }
  rewrite Hnil in Hel. by apply elem_of_nil in Hel.
Qed.

(** [me.<manager>.filter(id=k).exists()] on an existing target is
    membership of the pair in the through table. *)
Lemma related_exists {A} db (t : gmap Z A) rel (me : Z * UserInfo) k a :
  t !! k = Some a →
  orm.qs_exists db
    (orm.qs_filter (λ r, r.1 = k) (orm.related_manager t rel me)) =
  bool_decide ((me.1, k) ∈ orm.through db rel).
Proof.
  intros Hk. unfold orm.qs_exists, orm.fetch, orm.qs_filter, orm.related_manager.
  cbn [orm.qs_rows orm.qs_join].
  rewrite (filter_pk_Some _ t k a); [|done..].
  rewrite bind_singleton. cbn [fst].
  case_bool_decide as Hin.
  - apply through_rows_not_nil in Hin.
    by destruct (orm.through_rows db rel me.1 k).
  - by rewrite through_rows_nil.
Qed.

End toggle_facts.

(** Each toggle, unfolded: the guard, the two lookups, the branch. *)
Ltac unfold_view :=
  unfold mbind, view_bind, mret, view_ret, try, query, write, raise,
    orm.objects_get, orm.get_object_or_404.

Lemma content_favorite_unfold request content_id db :
  content_favorite request content_id db =
  match request_user_id request with
  | None => (Ok {| status_code := HTTP_403_FORBIDDEN; data := [] |}, db)
  | Some id =>
      match users db !! id with
      | None => (Raise DoesNotExist, db)
      | Some me =>
          match contents db !! content_id with
          | None => (Raise Http404, db)
          | Some _ =>
              if bool_decide ((id, content_id) ∈ favorite_contents db) then
                (Ok {| status_code := HTTP_200_OK;
                       data := [("message", VStr "Favorite content canceled.")] |},
                 set_favorite_contents
                   (favorite_contents db ∖ {[ (id, content_id) ]}) db)
              else
                (Ok {| status_code := HTTP_200_OK;
                       data := [("message", VStr "Favorite content success.");
                                ("user", VStr (username me));
                                ("content_id", VInt content_id)] |},
                 set_favorite_contents
                   ({[ (id, content_id) ]} ∪ favorite_contents db) db)
          end
      end
  end.
Proof.
  unfold content_favorite. destruct (request_user_id request) as [id|]; [|done].
  unfold_view. destruct (users db !! id) as [me|]; [|done].
  destruct (contents db !! content_id) as [c|] eqn:Hc; [|done].
  rewrite (related_exists db (contents db) orm.via_favorite_contents (id, me) _ c Hc).
  cbn [fst snd orm.through]. by case_bool_decide.
Qed.

Lemma content_like_unfold request content_id db :
  content_like request content_id db =
  match request_user_id request with
  | None => (Ok {| status_code := HTTP_403_FORBIDDEN; data := [] |}, db)
  | Some id =>
      match users db !! id with
      | None => (Raise DoesNotExist, db)
      | Some me =>
          match contents db !! content_id with
          | None => (Raise Http404, db)
          | Some _ =>
              if bool_decide ((id, content_id) ∈ liked_contents db) then
                (Ok {| status_code := HTTP_200_OK;
                       data := [("message", VStr "Like content canceled.")] |},
                 set_liked_contents
                   (liked_contents db ∖ {[ (id, content_id) ]}) db)
              else
                (Ok {| status_code := HTTP_200_OK;
                       data := [("message", VStr "Like content success.");
                                ("user", VStr (username me));
                                ("content_id", VInt content_id)] |},
                 set_liked_contents
                   ({[ (id, content_id) ]} ∪ liked_contents db) db)
          end
      end
  end.
Proof.
  unfold content_like. destruct (request_user_id request) as [id|]; [|done].
  unfold_view. destruct (users db !! id) as [me|]; [|done].
  destruct (contents db !! content_id) as [c|] eqn:Hc; [|done].
  rewrite (related_exists db (contents db) orm.via_liked_contents (id, me) _ c Hc).
  cbn [fst snd orm.through]. by case_bool_decide.
Qed.

Lemma comment_like_unfold request comment_id db :
  comment_like request comment_id db =
  match request_user_id request with
  | None => (Ok {| status_code := HTTP_403_FORBIDDEN; data := [] |}, db)
  | Some id =>
      match users db !! id with
      | None => (Raise DoesNotExist, db)
      | Some me =>
          match comments db !! comment_id with
          | None => (Raise Http404, db)
          | Some _ =>
              if bool_decide ((id, comment_id) ∈ liked_comments db) then
                (Ok {| status_code := HTTP_200_OK;
                       data := [("message", VStr "Like comment canceled.")] |},
                 set_liked_comments
                   (liked_comments db ∖ {[ (id, comment_id) ]}) db)
              else
                (Ok {| status_code := HTTP_200_OK;
                       data := [("message", VStr "Like comment success.");
                                ("user", VStr (username me));
                                ("content_id", VInt comment_id)] |},
                 set_liked_comments
                   ({[ (id, comment_id) ]} ∪ liked_comments db) db)
          end
      end
  end.
Proof.
  unfold comment_like. destruct (request_user_id request) as [id|]; [|done].
  unfold_view. destruct (users db !! id) as [me|]; [|done].
  destruct (comments db !! comment_id) as [c|] eqn:Hc; [|done].
  rewrite (related_exists db (comments db) orm.via_liked_comments (id, me) _ c Hc).
  cbn [fst snd orm.through]. by case_bool_decide.
Qed.

(** Removing a present pair and adding it again, and the converse. *)
Lemma remove_then_add (s : gset (Z * Z)) p : p ∈ s → {[ p ]} ∪ s ∖ {[ p ]} = s.
Proof.
  intros Hin. apply set_eq. intros x.
  rewrite elem_of_union, elem_of_difference, elem_of_singleton.
  destruct (decide (x = p)) as [->|]; tauto.
Qed.

Lemma add_then_remove (s : gset (Z * Z)) p : p ∉ s → ({[ p ]} ∪ s) ∖ {[ p ]} = s.
Proof.
  intros Hnot. apply set_eq. intros x.
  rewrite elem_of_difference, elem_of_union, elem_of_singleton.
  destruct (decide (x = p)) as [->|]; tauto.
Qed.

Lemma not_elem_of_removed (s : gset (Z * Z)) p : p ∉ s ∖ {[ p ]}.
Proof. rewrite elem_of_difference, elem_of_singleton. tauto. Qed.

Lemma elem_of_added (s : gset (Z * Z)) p : p ∈ {[ p ]} ∪ s.
Proof. apply elem_of_union_l, elem_of_singleton. done. Qed.

(** The four paths of a toggle run twice: [us !! uid] is the actor's row,
    [t !! id] the target's. *)
Ltac toggle_twice_cases us uid t id :=
  cbn;
  destruct (us !! uid) as [me|] eqn:Hme; [|cbn; rewrite Hme; done];
  destruct (t !! id) as [target|] eqn:Htarget; [|cbn; rewrite Hme, Htarget; done];
  case_bool_decide as Hin; cbn; rewrite Hme, Htarget;
  [ rewrite bool_decide_false by apply not_elem_of_removed; cbn;
    rewrite remove_then_add by done; done
  | rewrite bool_decide_true by apply elem_of_added; cbn;
    rewrite add_then_remove by done; done ].

(** The reports of the two branches, as [report_of] reads them. *)
Lemma report_of_branches :
  report_of "Favorite content" (content_favorite (request_of 1) 11 example_db).1
    = Some canceled ∧
  report_of "Like content" (content_like (request_of 1) 11 example_db).1
    = Some success ∧
  report_of "Like comment" (comment_like (request_of 2) 100 example_db).1
    = Some canceled ∧
  report_of "Like comment" (comment_like (request_of 1) 100 example_db).1
    = Some success.
Proof. by vm_compute. Qed.

(** C4: a like or favorite toggle performed twice in a row, by the same
    actor on the same target and with nothing in between, leaves the
    relation (and the whole store) as it was, and the second response
    reports the opposite of the first: canceled after success, success
    after canceled. *)
Theorem toggle_twice request id db :
  (let first := content_favorite request id db in
   let second := content_favorite request id first.2 in
   favorite_contents second.2 = favorite_contents db ∧ second.2 = db ∧
   report_of "Favorite content" second.1 =
     opposite <$> report_of "Favorite content" first.1) ∧
  (let first := content_like request id db in
   let second := content_like request id first.2 in
   liked_contents second.2 = liked_contents db ∧ second.2 = db ∧
   report_of "Like content" second.1 =
     opposite <$> report_of "Like content" first.1) ∧
  (let first := comment_like request id db in
   let second := comment_like request id first.2 in
   liked_comments second.2 = liked_comments db ∧ second.2 = db ∧
   report_of "Like comment" second.1 =
     opposite <$> report_of "Like comment" first.1).
Proof.
  cbv zeta.
  rewrite !content_favorite_unfold, !content_like_unfold, !comment_like_unfold.
  destruct (request_user_id request) as [uid|]; [|done].
  destruct db as [us cs ms fav lk lkm].
  split; [|split].
  - toggle_twice_cases us uid cs id.
  - toggle_twice_cases us uid cs id.
  - toggle_twice_cases us uid ms id.
Qed.

(** * Toggle responses *)

(** C7, counterexample: user 1 already likes content 10; the toggle
    removes the like and answers 200 with a body that has a message and
    neither user nor content_id. *)
Lemma canceled_body_lacks_user :
  ¬ every_200_has_full_body (request_of 1) 10 example_db.
Proof.
  intros Hall.
  destruct (Hall {| status_code := HTTP_200_OK;
                    data := [("message", VStr "Like content canceled.")] |})
    as (_ & Huser & _).
  - right; left. vm_compute. reflexivity.
  - reflexivity.
  - destruct Huser as [v Hv]. vm_compute in Hv. discriminate Hv.
Qed.

(** C7, amended: every 200 response of a toggle has a message.  For an
    authenticated actor and an existing target, the insert branch (the
    pair is not in the relation) answers 200 with message "... success.",
    user = the actor's username and content_id = the target id; the
    remove branch (the pair is in the relation) answers 200 with message
    "... canceled." and nothing else in the body. *)
Theorem toggle_bodies request id db :
  (∀ resp,
     (content_favorite request id db).1 = Ok resp ∨
     (content_like request id db).1 = Ok resp ∨
     (comment_like request id db).1 = Ok resp →
     status_code resp = HTTP_200_OK →
     ∃ m, body_get "message" (data resp) = Some (VStr m)) ∧
  (∀ uid me,
     request_user_id request = Some uid → users db !! uid = Some me →
     (is_Some (contents db !! id) →
        (content_favorite request id db).1 =
          Ok (if bool_decide ((uid, id) ∈ favorite_contents db) then
                {| status_code := 200;
                   data := [("message", VStr "Favorite content canceled.")] |}
              else
                {| status_code := 200;
                   data := [("message", VStr "Favorite content success.");
                            ("user", VStr (username me));
                            ("content_id", VInt id)] |}) ∧
        (content_like request id db).1 =
          Ok (if bool_decide ((uid, id) ∈ liked_contents db) then
                {| status_code := 200;
                   data := [("message", VStr "Like content canceled.")] |}
              else
                {| status_code := 200;
                   data := [("message", VStr "Like content success.");
                            ("user", VStr (username me));
                            ("content_id", VInt id)] |})) ∧
     (is_Some (comments db !! id) →
        (comment_like request id db).1 =
          Ok (if bool_decide ((uid, id) ∈ liked_comments db) then
                {| status_code := 200;
                   data := [("message", VStr "Like comment canceled.")] |}
              else
                {| status_code := 200;
                   data := [("message", VStr "Like comment success.");
                            ("user", VStr (username me));
                            ("content_id", VInt id)] |}))).
Proof.
  rewrite content_favorite_unfold, content_like_unfold, comment_like_unfold.
  split.
  - intros resp Hresp H200.
    destruct (request_user_id request) as [uid|].
    + destruct (users db !! uid) as [me|];
        [|by destruct Hresp as [?|[?|?]]].
      destruct (contents db !! id), (comments db !! id);
        repeat case_bool_decide;
        destruct Hresp as [Hr|[Hr|Hr]]; simplify_eq/=; eauto.
    + destruct Hresp as [Hr|[Hr|Hr]]; simplify_eq/=.
  - intros uid me -> ->. split.
    + intros [c ->]. split; by case_bool_decide.
    + intros [c ->]. by case_bool_decide.
Qed.

(** * Update and delete *)

Lemma content_put_unfold ser request id db :
  ContentDetailAPIView.put ser request id db =
  match contents db !! id with
  | None => (Raise Http404, db)
  | Some row =>
      if bool_decide (request_user_id request ≠ Some (content_userinfo_id row)) then
        (Ok {| status_code := HTTP_403_FORBIDDEN; data := [] |}, db)
      else if is_valid ser row (request_data request) then
        (Ok {| status_code := HTTP_200_OK;
               data := serializer_data ser (id, save ser row (request_data request)) |},
         set_contents (<[id := save ser row (request_data request)]> (contents db)) db)
      else (Raise ValidationError, db)
  end.
Proof.
  unfold ContentDetailAPIView.put, ContentDetailAPIView.get_row. unfold_view.
  destruct (contents db !! id) as [row|]; [|done]. cbn [fst snd].
  case_bool_decide; [done|]. by destruct (is_valid _ _ _).
Qed.

Lemma content_delete_unfold request id db :
  ContentDetailAPIView.delete request id db =
  match contents db !! id with
  | None => (Raise Http404, db)
  | Some row =>
      if bool_decide (request_user_id request ≠ Some (content_userinfo_id row)) then
        (Ok {| status_code := HTTP_403_FORBIDDEN; data := [] |}, db)
      else
        (Ok {| status_code := HTTP_204_NO_CONTENT; data := [] |},
         set_contents
           (<[id := {| content_userinfo_id := content_userinfo_id row;
                       content_fields := content_fields row;
                       content_create_dt := content_create_dt row;
                       content_is_visible := false |}]> (contents db)) db)
  end.
Proof.
  unfold ContentDetailAPIView.delete, ContentDetailAPIView.get_row. unfold_view.
  destruct (contents db !! id) as [row|]; [|done]. cbn [fst snd].
  by case_bool_decide.
Qed.

Lemma comment_put_unfold ser request id db :
  CommentDetailAPIView.put ser request id db =
  match comments db !! id with
  | None => (Raise Http404, db)
  | Some row =>
      if bool_decide (request_user_id request ≠ Some (comment_userinfo_id row)) then
        (Ok {| status_code := HTTP_403_FORBIDDEN; data := [] |}, db)
      else if is_valid ser row (request_data request) then
        (Ok {| status_code := HTTP_202_ACCEPTED;
               data := serializer_data ser (id, save ser row (request_data request)) |},
         set_comments (<[id := save ser row (request_data request)]> (comments db)) db)
      else (Raise ValidationError, db)
  end.
Proof.
  unfold CommentDetailAPIView.put, CommentDetailAPIView.get_row. unfold_view.
  destruct (comments db !! id) as [row|]; [|done]. cbn [fst snd].
  case_bool_decide; [done|]. by destruct (is_valid _ _ _).
Qed.

Lemma comment_delete_unfold request id db :
  CommentDetailAPIView.delete request id db =
  match comments db !! id with
  | None => (Raise Http404, db)
  | Some row =>
      if bool_decide (request_user_id request ≠ Some (comment_userinfo_id row)) then
        (Ok {| status_code := HTTP_403_FORBIDDEN; data := [] |}, db)
      else
        (Ok {| status_code := HTTP_204_NO_CONTENT; data := [] |},
         set_comments
           (<[id := {| comment_userinfo_id := comment_userinfo_id row;
                       comment_contentinfo_id := comment_contentinfo_id row;
                       comment_fields := comment_fields row;
                       comment_create_dt := comment_create_dt row;
                       comment_is_visible := false |}]> (comments db)) db)
  end.
Proof.
  unfold CommentDetailAPIView.delete, CommentDetailAPIView.get_row. unfold_view.
  destruct (comments db !! id) as [row|]; [|done]. cbn [fst snd].
  by case_bool_decide.
Qed.

Ltac mutation_cases :=
  repeat match goal with
         | |- context [bool_decide ?P] => destruct (bool_decide_reflect P)
         | |- context [is_valid ?s ?r ?d] => destruct (is_valid s r d) eqn:?
         end;
  cbn [fst snd http_status exn_status status_code].

(** C6: update and delete, on content and on comments, look the target
    up by its raw id.  They answer 404 exactly when no row has the id.  A
    soft-deleted row is found: a requester who is not its owner gets 403;
    its owner can update it with a valid payload and can soft-delete it
    again. *)
Theorem mutation_lookup_raw
    (ContentSerializer : Serializer ContentInfo)
    (CommentSerializer : Serializer CommentInfo) request id db :
  let content_put := ContentDetailAPIView.put ContentSerializer request id db in
  let content_delete := ContentDetailAPIView.delete request id db in
  let comment_put := CommentDetailAPIView.put CommentSerializer request id db in
  let comment_delete := CommentDetailAPIView.delete request id db in
  (http_status content_put.1 = HTTP_404_NOT_FOUND ↔ contents db !! id = None) ∧
  (http_status content_delete.1 = HTTP_404_NOT_FOUND ↔ contents db !! id = None) ∧
  (http_status comment_put.1 = HTTP_404_NOT_FOUND ↔ comments db !! id = None) ∧
  (http_status comment_delete.1 = HTTP_404_NOT_FOUND ↔ comments db !! id = None) ∧
  (∀ row, contents db !! id = Some row → content_is_visible row = false →
     (request_user_id request ≠ Some (content_userinfo_id row) →
        http_status content_put.1 = HTTP_403_FORBIDDEN ∧
        http_status content_delete.1 = HTTP_403_FORBIDDEN) ∧
     (request_user_id request = Some (content_userinfo_id row) →
        (is_valid ContentSerializer row (request_data request) = true →
           http_status content_put.1 = HTTP_200_OK ∧
           contents content_put.2 !! id =
             Some (save ContentSerializer row (request_data request))) ∧
        http_status content_delete.1 = HTTP_204_NO_CONTENT ∧
        contents content_delete.2 !! id = Some row)) ∧
  (∀ row, comments db !! id = Some row → comment_is_visible row = false →
     (request_user_id request ≠ Some (comment_userinfo_id row) →
        http_status comment_put.1 = HTTP_403_FORBIDDEN ∧
        http_status comment_delete.1 = HTTP_403_FORBIDDEN) ∧
     (request_user_id request = Some (comment_userinfo_id row) →
        (is_valid CommentSerializer row (request_data request) = true →
           http_status comment_put.1 = HTTP_202_ACCEPTED ∧
           comments comment_put.2 !! id =
             Some (save CommentSerializer row (request_data request))) ∧
        http_status comment_delete.1 = HTTP_204_NO_CONTENT ∧
        comments comment_delete.2 !! id = Some row)).
Proof.
  cbv zeta.
  rewrite content_put_unfold, content_delete_unfold,
    comment_put_unfold, comment_delete_unfold.
  split; [|split; [|split; [|split; [|split]]]].
  - split; [|by intros ->]. destruct (contents db !! id); [|done]. by mutation_cases.
  - split; [|by intros ->]. destruct (contents db !! id); [|done]. by mutation_cases.
  - split; [|by intros ->]. destruct (comments db !! id); [|done]. by mutation_cases.
  - split; [|by intros ->]. destruct (comments db !! id); [|done]. by mutation_cases.
  - intros row -> Hhidden. split.
    + intros Hother. by rewrite !bool_decide_true by done.
    + intros Howner. rewrite !bool_decide_false by (by intros Hne).
      split; [intros ->; split; [done|apply lookup_insert_eq]|].
      split; [done|]. cbn. rewrite lookup_insert_eq. f_equal.
      destruct row; cbn in *; congruence.
  - intros row -> Hhidden. split.
    + intros Hother. by rewrite !bool_decide_true by done.
    + intros Howner. rewrite !bool_decide_false by (by intros Hne).
      split; [intros ->; split; [done|apply lookup_insert_eq]|].
      split; [done|]. cbn. rewrite lookup_insert_eq. f_equal.
      destruct row; cbn in *; congruence.
Qed.

(** C9: a requester who is not the owner of an existing content row or
    comment gets 403 from update and from delete, whatever the payload
    and whatever the serializer makes of it, and the store is left as it
    was. *)
Theorem non_owner_forbidden
    (ContentSerializer : Serializer ContentInfo)
    (CommentSerializer : Serializer CommentInfo) request id db :
  let forbidden := Ok {| status_code := HTTP_403_FORBIDDEN; data := [] |} in
  (∀ row, contents db !! id = Some row →
     request_user_id request ≠ Some (content_userinfo_id row) →
     ContentDetailAPIView.put ContentSerializer request id db = (forbidden, db) ∧
     ContentDetailAPIView.delete request id db = (forbidden, db)) ∧
  (∀ row, comments db !! id = Some row →
     request_user_id request ≠ Some (comment_userinfo_id row) →
     CommentDetailAPIView.put CommentSerializer request id db = (forbidden, db) ∧
     CommentDetailAPIView.delete request id db = (forbidden, db)).
Proof.
  cbv zeta.
  rewrite content_put_unfold, content_delete_unfold,
    comment_put_unfold, comment_delete_unfold.
  split; intros row -> Hother; by rewrite !bool_decide_true by done.
Qed.

(** * The filter selectors *)

(** Decimal digits of any script are accepted and converted; characters
    that are numeric but not decimal digits, signs and separators are
    not. *)
Lemma isdecimal_any_script :
  isdecimal "2024" = true ∧ int "2024" = 2024 ∧
  isdecimal "١٢" = true ∧ int "١٢" = 12 ∧
  isdecimal "４２" = true ∧ int "４２" = 42 ∧
  isdecimal "²" = false ∧ isdecimal "½" = false ∧
  isdecimal "-1" = false ∧ isdecimal "1.5" = false ∧ isdecimal " 1" = false ∧
  isdecimal "" = false.
Proof. by vm_compute. Qed.

(** A decimal string denotes a non-negative integer. *)
Lemma decimal_nonneg cp : 0 ≤ default 0 (decimal cp).
Proof.
  unfold decimal.
  destruct (List.find _ decimal_zeros) as [zero|] eqn:Hfind; simpl; [|done].
  apply List.find_some in Hfind as [_ Hrange]. lia.
Qed.

Lemma int_nonneg s : isdecimal s = true → 0 ≤ int s.
Proof.
  intros _. unfold int.
  assert (∀ l acc, 0 ≤ acc →
            0 ≤ fold_left (λ acc cp, 10 * acc + default 0 (decimal cp)) l acc)
    as Hfold.
  { induction l as [|cp l IH]; intros acc Hacc; simpl; [done|].
    apply IH. pose proof (decimal_nonneg cp). lia. }
  by apply Hfold.
Qed.

(** C8, counterexample: with favorite-by=1 and liked-by=abc the list
    answers with the favorites of user 1; liked-by is never looked at. *)
Lemma later_selector_ignored :
  ¬ every_selector_validated example_db 0
      {| order_by := None; favorite_by := Some "1";
         liked_by := Some "abc"; user := None |}.
Proof.
  intros Hall. specialize (Hall "abc").
  assert (Some "abc" ∈ [Some "1"; Some "abc"; @None string]) as Hin
    by (right; left).
  specialize (Hall Hin eq_refl). vm_compute in Hall. discriminate Hall.
Qed.

(** C8, amended: in the content list and in the global comment list the
    selector that decides the filter (the first non-empty one of
    favorite-by, liked-by, user; of liked-by, user for comments) must be a
    decimal string, and the request fails with the 406 exception when it
    is not.  Empty selectors and the selectors after the deciding one are
    not examined. *)
Theorem malformed_selector db now content_id q s :
  isdecimal s = false →
  (selected [favorite_by q; liked_by q; user q] = Some s →
     ContentListAPIView.get_queryset db now q = Raise InvalidQueryParamsException) ∧
  (content_id = None ∨ content_id = Some 0 →
   selected [liked_by q; user q] = Some s →
     CommentListAPIView.get_queryset db content_id q =
       Raise InvalidQueryParamsException) ∧
  exn_status InvalidQueryParamsException = HTTP_406_NOT_ACCEPTABLE.
Proof.
  intros Hs. split; [|split; [|done]].
  - unfold ContentListAPIView.get_queryset, ContentListAPIView.rows. cbn [selected].
    destruct (truthy (favorite_by q)); [by intros ->; cbn; rewrite Hs|].
    destruct (truthy (liked_by q)); [by intros ->; cbn; rewrite Hs|].
    destruct (truthy (user q)); [by intros ->; cbn; rewrite Hs|done].
  - intros Hglobal. unfold CommentListAPIView.get_queryset. cbn [selected].
    rewrite bool_decide_false by (destruct Hglobal as [->| ->]; intros [[? [=]] ?]; done).
    destruct (truthy (liked_by q)); [by intros ->; cbn; rewrite Hs|].
    destruct (truthy (user q)); [by intros ->; cbn; rewrite Hs|done].
Qed.



(** * The engagement counts *)

Section counts.

Context {A B : Type}.

Lemma Count_app {R C} (col : R → option C) (l k : list R) :
  orm.Count col (l ++ k) = orm.Count col l + orm.Count col k.
Proof. unfold orm.Count. rewrite filter_app, length_app. lia. Qed.

Lemma Count_pair_l (x : option A) (ys : list (option B)) :
  orm.Count fst (pair x <$> ys) =
  match x with Some _ => Z.of_nat (length ys) | None => 0 end.
Proof.
  unfold orm.Count. induction ys as [|y ys IH]; [by destruct x|].
  rewrite fmap_cons. destruct x as [a|].
  - rewrite filter_cons_True by (cbn; eauto). cbn [length]. lia.
  - rewrite filter_cons_False by (cbn; by intros [? ?]). done.
Qed.

Lemma Count_pair_r (x : option A) (ys : list (option B)) :
  orm.Count snd (pair x <$> ys) = orm.Count id ys.
Proof.
  unfold orm.Count. induction ys as [|y ys IH]; [done|].
  rewrite fmap_cons. destruct y as [b|].
  - rewrite !filter_cons_True by (cbn; eauto). cbn [length]. lia.
  - rewrite !filter_cons_False by (cbn; by intros [? ?]). done.
Qed.

Lemma Count_cons {R C} (col : R → option C) (x : R) (l : list R) :
  orm.Count col (x :: l) =
  match col x with Some _ => 1 | None => 0 end + orm.Count col l.
Proof.
  unfold orm.Count. destruct (col x) as [c|] eqn:Hx.
  - rewrite filter_cons_True by (rewrite Hx; eauto). cbn [length]. lia.
  - rewrite filter_cons_False by (rewrite Hx; by intros [? ?]). done.
Qed.

Lemma Count_fst_prod (xs : list (option A)) (ys : list (option B)) :
  orm.Count fst (list_prod xs ys) = orm.Count id xs * Z.of_nat (length ys).
Proof.
  induction xs as [|x xs IH]; [done|].
  cbn [list_prod]. rewrite Count_app, IH.
  change (map (λ y, (x, y)) ys) with (pair x <$> ys).
  rewrite Count_pair_l, (Count_cons id). cbn [id]. destruct x; lia.
Qed.

Lemma Count_snd_prod (xs : list (option A)) (ys : list (option B)) :
  orm.Count snd (list_prod xs ys) = Z.of_nat (length xs) * orm.Count id ys.
Proof.
  induction xs as [|x xs IH]; [done|].
  cbn [list_prod]. rewrite Count_app, IH.
  change (map (λ y, (x, y)) ys) with (pair x <$> ys). rewrite Count_pair_r.
  cbn [length]. lia.
Qed.

Lemma Count_Some (l : list A) :
  orm.Count id (Some <$> l) = Z.of_nat (length l).
Proof.
  induction l as [|a l IH]; [done|].
  rewrite fmap_cons, (Count_cons id), IH. cbn [id length]. lia.
Qed.

Lemma Count_left_outer (l : list A) :
  orm.Count id (orm.left_outer l) = Z.of_nat (length l).
Proof.
  destruct l as [|a l]; [done|]. unfold orm.left_outer. apply Count_Some.
Qed.

Lemma length_left_outer (l : list A) :
  Z.of_nat (length (orm.left_outer l)) = Z.max 1 (Z.of_nat (length l)).
Proof.
  destruct l as [|a l]; [done|]. unfold orm.left_outer.
  rewrite length_fmap. cbn [length]. lia.
Qed.

End counts.

(** What the two [Count]s hold for a content row of a query without a
    related manager (the detail lookup, the list with no selector or with
    [user]): every comment row of the content, visible or not, is joined
    to every like row, and each count runs over the joined rows. *)
Lemma plain_counts db k :
  let comments := Z.of_nat (length (orm.comments_on_content db k)) in
  let likes := Z.of_nat (length (orm.liked_by db k)) in
  orm.Count fst (orm.join_rows db None k) = comments * Z.max 1 likes ∧
  orm.Count snd (orm.join_rows db None k) = Z.max 1 comments * likes.
Proof.
  cbv zeta. unfold orm.join_rows.
  by rewrite Count_fst_prod, Count_snd_prod, !Count_left_outer, !length_left_outer.
Qed.

(** C1, at the example store.  Content 11 has one comment, soft-deleted,
    and no like: it is annotated with comment_count = 1 where the claim
    says 0.  Content 10 has two visible comments and two likes: it is
    annotated with comment_count = 4 and like_count = 4 where the claim
    says 2 and 2.  The detail lookup and the list agree on both rows. *)
Theorem counts_diverge :
  (visible_comments example_db 11 = 0 ∧ likes example_db 11 = 0 ∧
   ∃ r rows,
     ContentDetailAPIView.get_queryset example_db example_now 11 = Ok [r] ∧
     ContentListAPIView.get_queryset example_db example_now no_params = Ok rows ∧
     r ∈ rows ∧ pk r = 11 ∧ comment_count r = 1 ∧ like_count r = 0) ∧
  (visible_comments example_db 10 = 2 ∧ likes example_db 10 = 2 ∧
   ∃ r rows,
     ContentDetailAPIView.get_queryset example_db example_now 10 = Ok [r] ∧
     ContentListAPIView.get_queryset example_db example_now no_params = Ok rows ∧
     r ∈ rows ∧ pk r = 10 ∧ comment_count r = 4 ∧ like_count r = 4).
Proof.
  split.
  - split; [by vm_compute|]. split; [by vm_compute|].
    eexists _, _. split; [vm_compute; reflexivity|].
    split; [vm_compute; reflexivity|].
    split; [right; left|done].
  - split; [by vm_compute|]. split; [by vm_compute|].
    eexists _, _. split; [vm_compute; reflexivity|].
    split; [vm_compute; reflexivity|].
    split; [left|done].
Qed.

(** In the list of the contents a user likes, like_count runs over that
    user's like only: two users like content 10, which has no comment
    here, and the list for liked-by=2 annotates it with like_count = 1. *)
Lemma liked_by_list_counts_one_like :
  let db := set_comments ∅ example_db in
  likes db 10 = 2 ∧
  ∃ r, ContentListAPIView.get_queryset db 0
         {| order_by := None; favorite_by := None;
            liked_by := Some "2"; user := None |} = Ok [r] ∧
       pk r = 10 ∧ comment_count r = 0 ∧ like_count r = 1.
Proof.
  cbv zeta. split; [by vm_compute|].
  eexists. split; [vm_compute; reflexivity|done].
Qed.

(** * The theorems at the example store *)

Lemma article_point_exact_witness :
  ∃ snapshot : Z,
    snapshot `mod` 1000000 = 0 ∧
    snapshot ≤ example_now < snapshot + 1000000 ∧
    ∀ r, r ∈ example_rows →
      - (131072 * 86400000000) < snapshot - create_dt r
        < 131072 * 86400000000 ∧
      ∃ age_days : Z,
        86400000000 * age_days ≤ snapshot - create_dt r
          < 86400000000 * (age_days + 1) ∧
        article_point r = -5 * age_days + 3 * comment_count r + like_count r.
Proof.
  destruct (article_point_exact example_db example_now no_params 10 example_rows)
    as (snapshot & Hmod & Hnow & Hrows); [left; vm_compute; reflexivity|].
  exists snapshot. split; [exact Hmod|]. split; [exact Hnow|].
  intros r Hr.
  assert (- (131072 * 86400000000) < snapshot - create_dt r
          < 131072 * 86400000000) as Hbound.
  { unfold example_now in Hnow. unfold example_rows in Hr.
    repeat (apply elem_of_cons in Hr as [->|Hr]);
      [..|by apply elem_of_nil in Hr]; unfold create_dt; simpl; lia. }
  split; [exact Hbound|]. exact (Hrows r Hr Hbound).
Defined.

Lemma list_order_witness :
  StronglySorted
    (λ x y, article_point y < article_point x ∨
            (article_point x = article_point y ∧ create_dt y ≤ create_dt x))
    example_rows ∧
  StronglySorted (λ x y, create_dt y ≤ create_dt x) (reverse example_rows).
Proof.
  split.
  - apply (list_order example_db example_now no_params example_rows).
    + vm_compute. reflexivity.
    + discriminate.
  - apply (list_order example_db example_now
             {| order_by := Some "new"; favorite_by := None;
                liked_by := None; user := None |}
             (reverse example_rows)).
    + vm_compute. reflexivity.
    + reflexivity.
Defined.

Lemma detail_lookup_witness :
  (∃ r, ContentDetailAPIView.get_queryset example_db example_now 10 = Ok [r] ∧
        pk r = 10 ∧ row_instance r = example_content 1 0 true) ∧
  ContentDetailAPIView.get_queryset example_db example_now 12 = Ok [] ∧
  ContentDetailAPIView.get_queryset example_db example_now 99 = Ok [].
Proof.
  split; [|split].
  - apply (proj1 (proj2 (detail_lookup example_db example_now 10))).
    + vm_compute. reflexivity.
    + reflexivity.
  - apply (proj1 (detail_lookup example_db example_now 12)).
    right. exists (example_content 1 5 false).
    split; [vm_compute; reflexivity|reflexivity].
  - apply (proj1 (detail_lookup example_db example_now 99)).
    left. vm_compute. reflexivity.
Defined.

Lemma mutation_lookup_raw_witness :
  http_status
    (ContentDetailAPIView.put example_content_serializer (request_of 1) 99
       example_db).1 = 404 ∧
  http_status
    (ContentDetailAPIView.put example_content_serializer (request_of 2) 12
       example_db).1 = 403 ∧
  http_status (ContentDetailAPIView.delete (request_of 1) 12 example_db).1 = 204 ∧
  contents (ContentDetailAPIView.delete (request_of 1) 12 example_db).2 !! 12 =
    Some (example_content 1 5 false).
Proof.
  assert (contents example_db !! 12 = Some (example_content 1 5 false)) as Hrow
    by (vm_compute; reflexivity).
  split; [|split].
  - pose proof (mutation_lookup_raw example_content_serializer
                  example_comment_serializer (request_of 1) 99 example_db) as H.
    cbv zeta in H. destruct H as [H404 _]. apply H404.
    vm_compute. reflexivity.
  - pose proof (mutation_lookup_raw example_content_serializer
                  example_comment_serializer (request_of 2) 12 example_db) as H.
    cbv zeta in H. destruct H as (_ & _ & _ & _ & Hcontent & _).
    destruct (Hcontent _ Hrow eq_refl) as [Hother _].
    apply Hother. discriminate.
  - pose proof (mutation_lookup_raw example_content_serializer
                  example_comment_serializer (request_of 1) 12 example_db) as H.
    cbv zeta in H. destruct H as (_ & _ & _ & _ & Hcontent & _).
    destruct (Hcontent _ Hrow eq_refl) as [_ Howner].
    apply Howner. reflexivity.
Defined.

Lemma toggle_bodies_witness :
  (content_favorite (request_of 1) 11 example_db).1 =
    Ok {| status_code := 200;
          data := [("message", VStr "Favorite content canceled.")] |} ∧
  (content_like (request_of 1) 11 example_db).1 =
    Ok {| status_code := 200;
          data := [("message", VStr "Like content success.");
                   ("user", VStr "ann"); ("content_id", VInt 11)] |}.
Proof.
  assert (users example_db !! 1 = Some {| username := "ann" |}) as Hme
    by (vm_compute; reflexivity).
  assert (is_Some (contents example_db !! 11)) as Htarget
    by (eexists; vm_compute; reflexivity).
  pose proof (proj1 (proj2 (toggle_bodies (request_of 1) 11 example_db)
                      1 {| username := "ann" |} eq_refl Hme) Htarget)
    as [Hfavorite Hlike].
  split.
  - rewrite Hfavorite. vm_compute. reflexivity.
  - rewrite Hlike. vm_compute. reflexivity.
Defined.

Lemma malformed_selector_witness :
  ContentListAPIView.get_queryset example_db 0
    {| order_by := None; favorite_by := Some ""; liked_by := Some "abc";
       user := Some "1" |} = Raise InvalidQueryParamsException ∧
  CommentListAPIView.get_queryset example_db None
    {| order_by := None; favorite_by := None; liked_by := None;
       user := Some "-1" |} = Raise InvalidQueryParamsException.
Proof.
  split.
  - apply (proj1 (malformed_selector example_db 0 None _ "abc" eq_refl)).
    reflexivity.
  - apply (proj1 (proj2 (malformed_selector example_db 0 None _ "-1" eq_refl))).
    + left. reflexivity.
    + reflexivity.
Defined.

Lemma non_owner_forbidden_witness :
  ContentDetailAPIView.put example_content_serializer (request_of 2) 10 example_db =
    (Ok {| status_code := 403; data := [] |}, example_db) ∧
  CommentDetailAPIView.delete (request_of 2) 100 example_db =
    (Ok {| status_code := 403; data := [] |}, example_db).
Proof.
  split.
  - apply (proj1 (non_owner_forbidden example_content_serializer
                    example_comment_serializer (request_of 2) 10 example_db)
             (example_content 1 0 true)).
    + vm_compute. reflexivity.
    + discriminate.
  - apply (proj2 (non_owner_forbidden example_content_serializer
                    example_comment_serializer (request_of 2) 100 example_db)
             (example_comment 1 10 7 true)).
    + vm_compute. reflexivity.
    + discriminate.
Defined.


(** * More of the views: what the lists hold *)

#[local] Set Warnings "-clear-no-such-hyp".

Section list_facts.

Lemma through_rows_singleton db rel u k :
  (u, k) ∈ orm.through db rel → orm.through_rows db rel u k = [(u, k)].
Proof.
  intros Hin. unfold orm.through_rows. apply NoDup_all_eq.
  - apply NoDup_filter, NoDup_elements.
  - intros p. rewrite list_elem_of_filter. by intros [-> _].
  - by rewrite list_elem_of_filter, elem_of_elements.
Qed.

Lemma join_rows_joined db j k : orm.join_rows db j k ≠ [] ↔ joined db j k.
Proof.
  unfold orm.join_rows, joined.
  pose proof (left_outer_not_nil (orm.comments_on_content db k)) as Hcms.
  pose proof (left_outer_not_nil (orm.liked_by db k)) as Hlikes.
  pose proof (list_prod_not_nil _ _ Hcms Hlikes) as Hprod.
  destruct j as [[r u]|]; [|done].
  destruct (decide ((u, k) ∈ orm.through db r)) as [Hin|Hout].
  - destruct r; rewrite (through_rows_singleton _ _ _ _ Hin), bind_singleton;
      split; try done; intros _.
    by destruct (orm.left_outer (orm.comments_on_content db k)).
  - destruct r; rewrite (through_rows_nil _ _ _ _ Hout); done.
Qed.

Lemma elem_of_groups_iff db q g :
  g ∈ orm.groups db q ↔
  g.1 ∈ orm.qs_rows q ∧ g.2 = orm.join_rows db (orm.qs_join q) g.1.1 ∧
  joined db (orm.qs_join q) g.1.1.
Proof.
  unfold orm.groups. rewrite list_elem_of_bind. split.
  - intros (row & Hg & Hrow).
    destruct (orm.join_rows db (orm.qs_join q) row.1) as [|j js] eqn:Hj;
      [by apply elem_of_nil in Hg|].
    apply list_elem_of_singleton in Hg. subst g. cbn [fst snd].
    split; [done|]. split; [done|]. apply join_rows_joined. by rewrite Hj.
  - intros (Hrow & Hg & Hjoined). exists g.1. split; [|done].
    apply join_rows_joined in Hjoined. rewrite <- Hg.
    destruct g as [row [|j js]]; [done|]. cbn [fst snd]. left.
Qed.

(** The rows of the content list, by primary key and stored row. *)
Lemma list_membership db now q qs rows k c :
  ContentListAPIView.rows db q = Ok qs →
  ContentListAPIView.get_queryset db now q = Ok rows →
  (∃ r, r ∈ rows ∧ pk r = k ∧ row_instance r = c) ↔
  (k, c) ∈ orm.qs_rows qs ∧ joined db (orm.qs_join qs) k.
Proof.
  intros Hqs. unfold ContentListAPIView.get_queryset. rewrite Hqs. cbn.
  intros Hrows.
  assert (∀ r, r ∈ rows ↔
            ∃ g, g ∈ orm.groups db qs ∧ r = ContentListAPIView.annotate now g)
    as Hin.
  { intros r. case_bool_decide; simplify_eq;
      rewrite elem_of_order_by, list_elem_of_fmap; naive_solver. }
  split.
  - intros (r & Hr & <- & <-). apply Hin in Hr as (g & Hg & ->).
    apply elem_of_groups_iff in Hg as (Hrow & _ & Hj).
    cbn [pk row_instance ContentListAPIView.annotate]. by destruct g as [[??]?].
  - intros [Hrow Hj].
    exists (ContentListAPIView.annotate now
              ((k, c), orm.join_rows db (orm.qs_join qs) k)).
    split; [|done]. apply Hin. eexists. split; [|done].
    by apply elem_of_groups_iff.
Qed.

Lemma list_Ok db now q qs :
  ContentListAPIView.rows db q = Ok qs →
  ∃ rows, ContentListAPIView.get_queryset db now q = Ok rows.
Proof.
  intros Hqs. unfold ContentListAPIView.get_queryset. rewrite Hqs. cbn.
  case_bool_decide; eauto.
Qed.

Lemma groups_sublist db q : (orm.groups db q).*1 `sublist_of` orm.qs_rows q.
Proof.
  unfold orm.groups. induction (orm.qs_rows q) as [|row rows IH]; [done|].
  rewrite bind_cons, fmap_app.
  destruct (orm.join_rows db (orm.qs_join q) row.1).
  - by apply sublist_cons.
  - by apply sublist_skip.
Qed.

Lemma fmap_fst_sublist {A B} (l k : list (A * B)) :
  l `sublist_of` k → l.*1 `sublist_of` k.*1.
Proof. induction 1; cbn; by constructor. Qed.

End list_facts.

Lemma list_rows_sound db now q rows r :
  ContentListAPIView.get_queryset db now q = Ok rows → r ∈ rows →
  contents db !! pk r = Some (row_instance r) ∧
  content_is_visible (row_instance r) = true.
Proof.
  intros Hrows Hr.
  destruct (ContentListAPIView.rows db q) as [qs|e] eqn:Hqs;
    [|by unfold ContentListAPIView.get_queryset in Hrows; rewrite Hqs in Hrows].
  assert ((pk r, row_instance r) ∈ orm.qs_rows qs) as Hin.
  { apply (list_membership db now q qs rows); eauto. }
  revert Hqs Hin. unfold ContentListAPIView.rows.
  repeat match goal with
         | |- context [truthy ?o] => destruct (truthy o)
         | |- context [isdecimal ?o] => destruct (isdecimal o)
         | |- context [orm.objects_get ?t ?k] => destruct (orm.objects_get t k)
         end; cbn; intros [= <-]; cbn;
    rewrite list_elem_of_filter, elem_of_map_to_list; cbn; naive_solver.
Qed.

(** X1: whatever the selectors, a row of the content list is a stored
    content row that is visible: a soft-deleted content is never listed. *)
Theorem list_rows_stored_visible db now q rows r :
  ContentListAPIView.get_queryset db now q = Ok rows → r ∈ rows →
  contents db !! pk r = Some (row_instance r) ∧
  content_is_visible (row_instance r) = true.
Proof.
  intros Hrows Hr.
  destruct (ContentListAPIView.rows db q) as [qs|e] eqn:Hqs;
    [|by unfold ContentListAPIView.get_queryset in Hrows; rewrite Hqs in Hrows].
  assert ((pk r, row_instance r) ∈ orm.qs_rows qs) as Hin.
  { apply (list_membership db now q qs rows); eauto. }
  revert Hqs Hin. unfold ContentListAPIView.rows.
  repeat match goal with
         | |- context [truthy ?o] => destruct (truthy o)
         | |- context [isdecimal ?o] => destruct (isdecimal o)
         | |- context [orm.objects_get ?t ?k] => destruct (orm.objects_get t k)
         end; cbn; intros [= <-]; cbn;
    rewrite list_elem_of_filter, elem_of_map_to_list; cbn; naive_solver.
Qed.

(** X2: with no selector (each of favorite-by, liked-by, user absent or
    empty) the content list holds exactly the visible content rows. *)
Theorem list_without_selector db now q :
  selected [favorite_by q; liked_by q; user q] = None →
  ∃ rows, ContentListAPIView.get_queryset db now q = Ok rows ∧
    ∀ k c, (∃ r, r ∈ rows ∧ pk r = k ∧ row_instance r = c) ↔
           contents db !! k = Some c ∧ content_is_visible c = true.
Proof.
  intros Hsel.
  assert (∃ qs, ContentListAPIView.rows db q = Ok qs ∧
            qs = orm.qs_filter (λ r, content_is_visible r.2 = true)
                   (orm.objects (contents db))) as (qs & Hqs & Hqs').
  { revert Hsel. unfold ContentListAPIView.rows. cbn [selected].
    destruct (truthy (favorite_by q)) eqn:Ht; [by intros Hn; rewrite Hn in Ht|]; clear Ht.
    destruct (truthy (liked_by q)) eqn:Ht; [by intros Hn; rewrite Hn in Ht|]; clear Ht.
    destruct (truthy (user q)) eqn:Ht; [by intros Hn; rewrite Hn in Ht|]; clear Ht. eauto. }
  destruct (list_Ok db now q qs Hqs) as [rows Hrows]. exists rows.
  split; [done|]. intros k c.
  rewrite (list_membership db now q qs rows k c Hqs Hrows). subst qs. cbn.
  rewrite list_elem_of_filter, elem_of_map_to_list. cbn. naive_solver.
Qed.



Section more_list_facts.

Lemma rows_sublist db q qs :
  ContentListAPIView.rows db q = Ok qs →
  orm.qs_rows qs `sublist_of` map_to_list (contents db).
Proof.
  unfold ContentListAPIView.rows.
  repeat match goal with
         | |- context [truthy ?o] => destruct (truthy o)
         | |- context [isdecimal ?o] => destruct (isdecimal o)
         | |- context [orm.objects_get ?t ?k] => destruct (orm.objects_get t k)
         end; cbn; intros [= <-]; cbn; apply sublist_filter.
Qed.

(** The query the selectors pick does not depend on order-by. *)
Lemma rows_order_by db q mode :
  ContentListAPIView.rows db
    {| order_by := mode; favorite_by := favorite_by q;
       liked_by := liked_by q; user := user q |} =
  ContentListAPIView.rows db q.
Proof. reflexivity. Qed.

Lemma list_permutation db now q rows :
  ContentListAPIView.get_queryset db now q = Ok rows →
  ∃ qs, ContentListAPIView.rows db q = Ok qs ∧
        rows ≡ₚ ContentListAPIView.annotate now <$> orm.groups db qs.
Proof.
  unfold ContentListAPIView.get_queryset.
  destruct (ContentListAPIView.rows db q) as [qs|e]; simpl; [|done].
  case_bool_decide; intros [= <-]; exists qs; split; try done;
    unfold orm.order_by; apply merge_sort_Permutation.
Qed.

(** The detail lookup, by the stored row. *)
Lemma detail_eq db now id :
  ContentDetailAPIView.get_queryset db now id =
  match contents db !! id with
  | Some c =>
      if content_is_visible c then
        Ok [ContentDetailAPIView.annotate now ((id, c), orm.join_rows db None id)]
      else Ok []
  | None => Ok []
  end.
Proof.
  unfold ContentDetailAPIView.get_queryset, orm.qs_exists.
  unfold orm.qs_filter, orm.objects, orm.fetch. simpl.
  destruct (contents db !! id) as [c|] eqn:Hc.
  - destruct (content_is_visible c) eqn:Hvis.
    + rewrite (filter_pk_Some _ _ id c); [|by intros r [? _]|done|done].
      by rewrite groups_plain.
    + rewrite (filter_pk_nil _ _ id); [done|by intros r [? _]|].
      intros a Ha [_ Hv]. simpl in Hv. congruence.
  - rewrite (filter_pk_nil _ _ id); [done|by intros r [? _]|].
    intros a Ha. congruence.
Qed.

Lemma length_filter_elements (P : Z * Z → Prop) `{∀ p, Decision (P p)}
    (s : gset (Z * Z)) :
  length (filter P (elements s)) = size (filter P s).
Proof.
  unfold size, set_size. cbn. apply Permutation_length, NoDup_Permutation.
  - apply NoDup_filter, NoDup_elements.
  - apply NoDup_elements.
  - intros p. by rewrite list_elem_of_filter, !elem_of_elements, elem_of_filter.
Qed.

End more_list_facts.

(** X5: the content list holds every content row at most once, under
    every selector. *)
Theorem list_pks_NoDup db now q rows :
  ContentListAPIView.get_queryset db now q = Ok rows → NoDup (pk <$> rows).
Proof.
  intros Hrows. destruct (list_permutation _ _ _ _ Hrows) as (qs & Hqs & ->).
  replace (pk <$> (ContentListAPIView.annotate now <$> orm.groups db qs))
    with ((orm.groups db qs).*1).*1 by (by rewrite <- !list_fmap_compose).
  assert ((orm.groups db qs).*1.*1 `sublist_of` (map_to_list (contents db)).*1)
    as Hsub; [|exact (sublist_NoDup _ _ (NoDup_fst_map_to_list (contents db)) Hsub)].
  apply fmap_fst_sublist. etrans; [apply groups_sublist|].
  by apply (rows_sublist db q).
Qed.

(** X6: order-by changes the order of the content list and nothing else:
    for the same store, clock and selectors, the lists under two values of
    order-by are permutations of each other. *)
Theorem order_mode_permutes db now q mode rows rows' :
  ContentListAPIView.get_queryset db now q = Ok rows →
  ContentListAPIView.get_queryset db now
    {| order_by := mode; favorite_by := favorite_by q;
       liked_by := liked_by q; user := user q |} = Ok rows' →
  rows ≡ₚ rows'.
Proof.
  intros Hrows Hrows'.
  destruct (list_permutation _ _ _ _ Hrows) as (qs & Hqs & ->).
  destruct (list_permutation _ _ _ _ Hrows') as (qs' & Hqs' & ->).
  rewrite rows_order_by in Hqs'. by assert (qs = qs') as -> by congruence.
Qed.

(** X7: a selector that is not the deciding one never changes the
    outcome of the content list, rows or exception: with favorite-by
    non-empty, liked-by and user are free; with favorite-by absent or
    empty and liked-by non-empty, user is free; and an empty selector is
    the same as an absent one. *)
Theorem selector_precedence db now q l u :
  (truthy (favorite_by q) = true →
   ContentListAPIView.get_queryset db now q =
   ContentListAPIView.get_queryset db now
     {| order_by := order_by q; favorite_by := favorite_by q;
        liked_by := l; user := u |}) ∧
  (truthy (favorite_by q) = false → truthy (liked_by q) = true →
   ContentListAPIView.get_queryset db now q =
   ContentListAPIView.get_queryset db now
     {| order_by := order_by q; favorite_by := favorite_by q;
        liked_by := liked_by q; user := u |}) ∧
  ContentListAPIView.get_queryset db now q =
  ContentListAPIView.get_queryset db now
    {| order_by := order_by q; favorite_by := selected [favorite_by q];
       liked_by := selected [liked_by q]; user := selected [user q] |}.
Proof.
  unfold ContentListAPIView.get_queryset, ContentListAPIView.rows.
  cbn [order_by favorite_by liked_by user selected].
  split; [|split].
  - by intros ->.
  - by intros -> ->.
  - destruct (truthy (favorite_by q)) eqn:Hf; cbn [truthy]; rewrite ?Hf; [done|].
    destruct (truthy (liked_by q)) eqn:Hl; cbn [truthy]; rewrite ?Hl; [done|].
    destruct (truthy (user q)) eqn:Hu; cbn [truthy]; rewrite ?Hu; done.
Qed.

(** X8: the score only decays with the clock.  For the same store and
    content, a later lookup finds the same counts, an age that is not
    smaller, and an article_point lower by five points per day of age
    gained. *)
Theorem article_point_decays db id now now' r r' :
  now ≤ now' →
  ContentDetailAPIView.get_queryset db now id = Ok [r] →
  ContentDetailAPIView.get_queryset db now' id = Ok [r'] →
  comment_count r' = comment_count r ∧ like_count r' = like_count r ∧
  duration r ≤ duration r' ∧
  article_point r' = article_point r - 5 * (duration r' - duration r).
Proof.
  intros Hle. rewrite !detail_eq.
  destruct (contents db !! id) as [c|]; [|done].
  destruct (content_is_visible c); [|done].
  intros [= <-] [= <-]. cbn. split; [done|]. split; [done|].
  assert (orm.replace_microsecond_0 now ≤ orm.replace_microsecond_0 now') as Hs.
  { unfold orm.replace_microsecond_0.
    pose proof (Z.div_mod now 1000000 ltac:(lia)).
    pose proof (Z.div_mod now' 1000000 ltac:(lia)).
    pose proof (Z.div_le_mono now now' 1000000 ltac:(lia) Hle). lia. }
  split; [|lia].
  apply FLOOR_div_mono; lia.
Qed.

(** X9: what the detail lookup counts.  With [comments] the number of
    stored comments of the content, visible or not, and [likes] the
    number of users that like it, the row carries
    comment_count = comments * max(1, likes) and
    like_count = max(1, comments) * likes. *)
Theorem detail_counts db now id r :
  ContentDetailAPIView.get_queryset db now id = Ok [r] →
  let comments :=
    Z.of_nat (length (filter (λ m : Z * CommentInfo, comment_contentinfo_id m.2 = id)
                        (map_to_list (comments db)))) in
  let likes :=
    Z.of_nat (size (filter (λ p : Z * Z, p.2 = id) (liked_contents db))) in
  comment_count r = comments * Z.max 1 likes ∧
  like_count r = Z.max 1 comments * likes.
Proof.
  rewrite detail_eq. destruct (contents db !! id) as [c|]; [|done].
  destruct (content_is_visible c); [|done]. intros [= <-]. cbv zeta.
  rewrite <- length_filter_elements.
  destruct (plain_counts db id) as [Hc Hl]. cbv zeta in Hc, Hl. done.
Qed.

(** * More of the views: the comment lists *)

#[global] Instance comment_earliest_total : Total comment_earliest.
Proof. intros x y. unfold comment_earliest. lia. Qed.

#[global] Instance comment_earliest_trans : Transitive comment_earliest.
Proof. intros x y z. unfold comment_earliest. lia. Qed.

#[global] Instance comment_latest_total : Total comment_latest.
Proof. intros x y. unfold comment_latest. lia. Qed.

#[global] Instance comment_latest_trans : Transitive comment_latest.
Proof. intros x y z. unfold comment_latest. lia. Qed.

Lemma elem_of_fetch {A} db (q : orm.QuerySet A) (row : Z * A) :
  row ∈ orm.fetch db q ↔ row ∈ orm.qs_rows q ∧ joined db (orm.qs_join q) row.1.
Proof.
  unfold orm.fetch, joined. destruct (orm.qs_join q) as [[r u]|]; [|naive_solver].
  rewrite list_elem_of_bind. split.
  - intros (row' & Hin & Hrow').
    destruct (decide ((u, row'.1) ∈ orm.through db r)) as [Hj|Hj].
    + rewrite (through_rows_singleton _ _ _ _ Hj), bind_singleton in Hin.
      apply list_elem_of_singleton in Hin. by subst.
    + rewrite (through_rows_nil _ _ _ _ Hj) in Hin. by apply elem_of_nil in Hin.
  - intros [Hrow Hj]. exists row. split; [|done].
    rewrite (through_rows_singleton _ _ _ _ Hj), bind_singleton. left.
Qed.

Lemma global_comments_eq db content_id GET :
  content_id = None ∨ content_id = Some 0 →
  CommentListAPIView.get_queryset db content_id GET =
  rows ← comment_rows db GET;
  Ok (orm.order_by comment_latest (orm.fetch db rows)).
Proof.
  intros Hglobal. unfold CommentListAPIView.get_queryset.
  rewrite bool_decide_false
    by (destruct Hglobal as [->| ->]; intros [[? [=]] ?]; done).
  reflexivity.
Qed.

(** X10: the thread list.  For a content id other than 0 that SQLite can
    bind (below 2^63) the comment list never raises, whatever the query
    string holds; it holds exactly the visible comments attached to that
    id, earliest first.  The content row itself is not looked at: the
    comments of a soft-deleted or missing content are listed all the
    same. *)
Theorem thread_comments db k GET :
  k ≠ 0 → orm.sqlite_integer k →
  ∃ rows, CommentListAPIView.get_queryset db (Some k) GET = Ok rows ∧
    StronglySorted (λ x y, comment_create_dt x.2 ≤ comment_create_dt y.2) rows ∧
    ∀ id c, (id, c) ∈ rows ↔
            comments db !! id = Some c ∧ comment_contentinfo_id c = k ∧
            comment_is_visible c = true.
Proof.
  intros Hk _. unfold CommentListAPIView.get_queryset.
  rewrite bool_decide_true by (split; [by eexists|congruence]).
  eexists. split; [done|]. split.
  - apply (StronglySorted_merge_sort comment_earliest).
  - intros id c. rewrite elem_of_order_by. unfold orm.fetch. cbn.
    rewrite list_elem_of_filter, elem_of_map_to_list. cbn. naive_solver.
Qed.

(** X11: the global comment list (no content id, or content id 0) is in
    descending order of creation time, and each of its rows is a stored,
    visible comment. *)
Theorem global_comments_latest_first db content_id GET rows :
  content_id = None ∨ content_id = Some 0 →
  CommentListAPIView.get_queryset db content_id GET = Ok rows →
  StronglySorted (λ x y, comment_create_dt y.2 ≤ comment_create_dt x.2) rows ∧
  ∀ id c, (id, c) ∈ rows →
          comments db !! id = Some c ∧ comment_is_visible c = true.
Proof.
  intros Hglobal. rewrite (global_comments_eq _ _ _ Hglobal).
  destruct (comment_rows db GET) as [qs|e] eqn:Hqs; [|done].
  cbn. intros [= <-]. split.
  - apply (StronglySorted_merge_sort comment_latest).
  - intros id c. rewrite elem_of_order_by, elem_of_fetch. intros [Hin _].
    revert Hqs Hin. unfold comment_rows.
    repeat match goal with
           | |- context [truthy ?o] => destruct (truthy o)
           | |- context [isdecimal ?o] => destruct (isdecimal o)
           | |- context [orm.objects_get ?t ?k] => destruct (orm.objects_get t k)
           end; cbn; intros [= <-]; cbn;
      rewrite list_elem_of_filter, elem_of_map_to_list; cbn; naive_solver.
Qed.


(** * More of the views: update and delete *)

Section mutation_facts.

(** Replacing a row by one that a condition treats alike keeps the number
    of rows the condition selects. *)
Lemma length_filter_insert {A} (P : Z * A → Prop) `{∀ r, Decision (P r)}
    (m : gmap Z A) (k : Z) (a a' : A) :
  m !! k = Some a → (P (k, a) ↔ P (k, a')) →
  length (filter P (map_to_list (<[k := a']> m))) =
  length (filter P (map_to_list m)).
Proof.
  intros Hk HP. rewrite <- (insert_delete_eq m).
  rewrite map_to_list_insert by apply lookup_delete_eq.
  rewrite <- (map_to_list_delete m k a Hk).
  rewrite !filter_cons.
  destruct (decide (P (k, a'))), (decide (P (k, a))); cbn; tauto || done.
Qed.

(** The detail lookup reads the content row, the number of comments
    attached to it and the number of likes on it, and nothing else. *)
Lemma detail_by_counts db db' now id :
  contents db' !! id = contents db !! id →
  length (orm.comments_on_content db' id) = length (orm.comments_on_content db id) →
  length (orm.liked_by db' id) = length (orm.liked_by db id) →
  ContentDetailAPIView.get_queryset db' now id =
  ContentDetailAPIView.get_queryset db now id.
Proof.
  intros Hrow Hcomments Hlikes. rewrite !detail_eq, Hrow.
  destruct (contents db !! id) as [c|]; [|done].
  destruct (content_is_visible c); [|done]. do 2 f_equal.
  unfold ContentDetailAPIView.annotate. cbn [fst snd].
  destruct (plain_counts db id) as [-> ->], (plain_counts db' id) as [-> ->].
  by rewrite Hcomments, Hlikes.
Qed.

End mutation_facts.

(** X13: after its owner deleted a content row, the detail lookup of the
    id is empty and no content list holds it, under any selector and at
    any time; the likes and favorites that point to it stay in the
    relations. *)
Theorem delete_hides_content db request id row :
  contents db !! id = Some row →
  request_user_id request = Some (content_userinfo_id row) →
  let db' := (ContentDetailAPIView.delete request id db).2 in
  (∀ now, ContentDetailAPIView.get_queryset db' now id = Ok []) ∧
  (∀ now q rows r,
     ContentListAPIView.get_queryset db' now q = Ok rows → r ∈ rows → pk r ≠ id) ∧
  liked_contents db' = liked_contents db ∧
  favorite_contents db' = favorite_contents db.
Proof.
  intros Hrow Howner. cbv zeta. rewrite content_delete_unfold, Hrow.
  rewrite bool_decide_false by (by intros Hne). cbn [snd].
  split; [|split; [|done]].
  - intros now. rewrite detail_eq. cbn. by rewrite lookup_insert_eq.
  - intros now q rows r Hrows Hr Hpk.
    destruct (list_rows_sound _ _ _ _ _ Hrows Hr) as [Hstored Hvis].
    cbn in Hstored. rewrite Hpk, lookup_insert_eq in Hstored.
    injection Hstored as Heq. by rewrite <- Heq in Hvis.
Qed.

(** X14: delete is a soft delete.  For every request, on content and on
    comments, it removes no row and adds none; the users, the other table
    and the three relations stay as they are; every row keeps its owner,
    columns and creation time; rows of other ids are untouched; and no
    row that was hidden becomes visible. *)
Theorem delete_frame db request id :
  (let db' := (ContentDetailAPIView.delete request id db).2 in
   users db' = users db ∧ comments db' = comments db ∧
   favorite_contents db' = favorite_contents db ∧
   liked_contents db' = liked_contents db ∧
   liked_comments db' = liked_comments db ∧
   ∀ k, match contents db !! k with
        | Some c =>
            ∃ c', contents db' !! k = Some c' ∧
                  content_userinfo_id c' = content_userinfo_id c ∧
                  content_fields c' = content_fields c ∧
                  content_create_dt c' = content_create_dt c ∧
                  (content_is_visible c' = true → content_is_visible c = true) ∧
                  (k ≠ id → c' = c)
        | None => contents db' !! k = None
        end) ∧
  (let db' := (CommentDetailAPIView.delete request id db).2 in
   users db' = users db ∧ contents db' = contents db ∧
   favorite_contents db' = favorite_contents db ∧
   liked_contents db' = liked_contents db ∧
   liked_comments db' = liked_comments db ∧
   ∀ k, match comments db !! k with
        | Some c =>
            ∃ c', comments db' !! k = Some c' ∧
                  comment_userinfo_id c' = comment_userinfo_id c ∧
                  comment_contentinfo_id c' = comment_contentinfo_id c ∧
                  comment_fields c' = comment_fields c ∧
                  comment_create_dt c' = comment_create_dt c ∧
                  (comment_is_visible c' = true → comment_is_visible c = true) ∧
                  (k ≠ id → c' = c)
        | None => comments db' !! k = None
        end).
Proof.
  cbv zeta. rewrite content_delete_unfold, comment_delete_unfold. split.
  - destruct (contents db !! id) as [row|] eqn:Hrow;
      [case_bool_decide|]; cbn [snd];
      (do 5 (split; [done|])); intros k;
      try (destruct (contents db !! k) as [c|] eqn:Hk; [eauto 10|done]).
    cbn. destruct (decide (k = id)) as [->|Hne].
    + rewrite Hrow, lookup_insert_eq. eexists. by repeat split.
    + rewrite lookup_insert_ne by done. destruct (contents db !! k); eauto 10.
  - destruct (comments db !! id) as [row|] eqn:Hrow;
      [case_bool_decide|]; cbn [snd];
      (do 5 (split; [done|])); intros k;
      try (destruct (comments db !! k) as [c|] eqn:Hk; [eauto 10|done]).
    cbn. destruct (decide (k = id)) as [->|Hne].
    + rewrite Hrow, lookup_insert_eq. eexists. by repeat split.
    + rewrite lookup_insert_ne by done. destruct (comments db !! k); eauto 10.
Qed.

(** X15: delete is idempotent.  Sent again, the same delete gets the same
    answer (204 for the owner, not 404) and leaves the store as the first
    one left it; on content and on comments. *)
Theorem delete_idempotent db request id :
  (let first := ContentDetailAPIView.delete request id db in
   ContentDetailAPIView.delete request id first.2 = first) ∧
  (let first := CommentDetailAPIView.delete request id db in
   CommentDetailAPIView.delete request id first.2 = first).
Proof.
  cbv zeta. rewrite !content_delete_unfold, !comment_delete_unfold. split.
  - destruct (contents db !! id) as [row|] eqn:Hrow; cbn [snd]; [|by rewrite Hrow].
    case_bool_decide as Howner; cbn [snd].
    + rewrite Hrow. by rewrite bool_decide_true.
    + cbn. rewrite lookup_insert_eq. cbn.
      rewrite bool_decide_false by (by intros Hne).
      unfold set_contents, set_comments. cbn. by rewrite insert_insert_eq.
  - destruct (comments db !! id) as [row|] eqn:Hrow; cbn [snd]; [|by rewrite Hrow].
    case_bool_decide as Howner; cbn [snd].
    + rewrite Hrow. by rewrite bool_decide_true.
    + cbn. rewrite lookup_insert_eq. cbn.
      rewrite bool_decide_false by (by intros Hne).
      unfold set_contents, set_comments. cbn. by rewrite insert_insert_eq.
Qed.

(** X16: update writes one row or nothing.  For every serializer and
    request, put on content leaves the users, the comments and the three
    relations as they are, leaves every content row of another id as it
    is, and neither adds nor removes a row; unless it answers 200 the
    whole store is as it was (an owner's invalid payload raises the
    validation error and writes nothing).  The same for put on comments,
    with 202. *)
Theorem put_frame
    (ContentSerializer : Serializer ContentInfo)
    (CommentSerializer : Serializer CommentInfo) db request id :
  (let out := ContentDetailAPIView.put ContentSerializer request id db in
   users out.2 = users db ∧ comments out.2 = comments db ∧
   favorite_contents out.2 = favorite_contents db ∧
   liked_contents out.2 = liked_contents db ∧
   liked_comments out.2 = liked_comments db ∧
   (∀ k, k ≠ id → contents out.2 !! k = contents db !! k) ∧
   (is_Some (contents out.2 !! id) ↔ is_Some (contents db !! id)) ∧
   (http_status out.1 ≠ HTTP_200_OK → out.2 = db) ∧
   (∀ row, contents db !! id = Some row →
           request_user_id request = Some (content_userinfo_id row) →
           is_valid ContentSerializer row (request_data request) = false →
           out = (Raise ValidationError, db))) ∧
  (let out := CommentDetailAPIView.put CommentSerializer request id db in
   users out.2 = users db ∧ contents out.2 = contents db ∧
   favorite_contents out.2 = favorite_contents db ∧
   liked_contents out.2 = liked_contents db ∧
   liked_comments out.2 = liked_comments db ∧
   (∀ k, k ≠ id → comments out.2 !! k = comments db !! k) ∧
   (is_Some (comments out.2 !! id) ↔ is_Some (comments db !! id)) ∧
   (http_status out.1 ≠ HTTP_202_ACCEPTED → out.2 = db) ∧
   (∀ row, comments db !! id = Some row →
           request_user_id request = Some (comment_userinfo_id row) →
           is_valid CommentSerializer row (request_data request) = false →
           out = (Raise ValidationError, db))).
Proof.
  cbv zeta. rewrite content_put_unfold, comment_put_unfold. split.
  - destruct (contents db !! id) as [row|] eqn:Hrow;
      [case_bool_decide as Howner;
       [|destruct (is_valid _ _ _) eqn:Hvalid]|];
      cbn [fst snd]; split_and!; try done; cbn;
      first [ intros k Hk; by rewrite lookup_insert_ne
            | rewrite lookup_insert_eq; split; eauto
            | intros Hne; by destruct Hne
            | intros r [= <-] Hr; by destruct Howner
            | intros r [= <-] ? ?; congruence
            | by rewrite Hrow ].
  - destruct (comments db !! id) as [row|] eqn:Hrow;
      [case_bool_decide as Howner;
       [|destruct (is_valid _ _ _) eqn:Hvalid]|];
      cbn [fst snd]; split_and!; try done; cbn;
      first [ intros k Hk; by rewrite lookup_insert_ne
            | rewrite lookup_insert_eq; split; eauto
            | intros Hne; by destruct Hne
            | intros r [= <-] Hr; by destruct Howner
            | intros r [= <-] ? ?; congruence
            | by rewrite Hrow ].
Qed.

(** * More of the views: what a write does to the reads *)

Section read_after_write.

Lemma comment_list_sound db content_id GET rows id c :
  CommentListAPIView.get_queryset db content_id GET = Ok rows →
  (id, c) ∈ rows →
  comments db !! id = Some c ∧ comment_is_visible c = true.
Proof.
  unfold CommentListAPIView.get_queryset. case_bool_decide.
  - intros [= <-]. rewrite elem_of_order_by. unfold orm.fetch. cbn.
    rewrite list_elem_of_filter, elem_of_map_to_list. cbn. naive_solver.
  - repeat match goal with
           | |- context [truthy ?o] => destruct (truthy o)
           | |- context [isdecimal ?o] => destruct (isdecimal o)
           | |- context [orm.objects_get ?t ?k] => destruct (orm.objects_get t k)
           end; cbn [mbind result_bind]; intros [= <-];
      rewrite elem_of_order_by, elem_of_fetch; cbn;
      rewrite list_elem_of_filter, elem_of_map_to_list; cbn; naive_solver.
Qed.

Lemma detail_row db now id r :
  ContentDetailAPIView.get_queryset db now id = Ok [r] →
  ∃ c, contents db !! id = Some c ∧ content_is_visible c = true ∧
       r = ContentDetailAPIView.annotate now ((id, c), orm.join_rows db None id).
Proof.
  rewrite detail_eq. destruct (contents db !! id) as [c|]; [|done].
  destruct (content_is_visible c) eqn:Hvis; [|done]. intros [= <-]. eauto.
Qed.

(** One more like on content [k]. *)
Lemma liked_by_add db (u k : Z) :
  (u, k) ∉ liked_contents db →
  length (orm.liked_by (set_liked_contents ({[ (u, k) ]} ∪ liked_contents db) db) k) =
  S (length (orm.liked_by db k)).
Proof.
  intros Hnot. unfold orm.liked_by. cbn [liked_contents set_liked_contents].
  rewrite (elements_union_singleton _ _ Hnot).
  by rewrite filter_cons_True.
Qed.

Lemma score_with_one_more_like (comments likes : Z) :
  0 ≤ comments → 0 ≤ likes →
  comments * Z.max 1 likes ≤ comments * Z.max 1 (likes + 1) ∧
  Z.max 1 comments * likes < Z.max 1 comments * (likes + 1).
Proof. intros Hc Hl. split; nia. Qed.


End read_after_write.

(** X17: after its owner deleted a comment, no comment list holds it,
    thread or global, under any selector; and the detail lookup of every
    content answers exactly as before the delete, counts and score
    included. *)
Theorem comment_delete_effects db request id row :
  comments db !! id = Some row →
  request_user_id request = Some (comment_userinfo_id row) →
  let db' := (CommentDetailAPIView.delete request id db).2 in
  (∀ content_id GET rows c,
     CommentListAPIView.get_queryset db' content_id GET = Ok rows →
     (id, c) ∉ rows) ∧
  (∀ now k, ContentDetailAPIView.get_queryset db' now k =
            ContentDetailAPIView.get_queryset db now k).
Proof.
  intros Hrow Howner. cbv zeta. rewrite comment_delete_unfold, Hrow.
  rewrite bool_decide_false by (by intros Hne). cbn [snd]. split.
  - intros content_id GET rows c Hrows Hin.
    destruct (comment_list_sound _ _ _ _ _ _ Hrows Hin) as [Hstored Hvis].
    cbn in Hstored. rewrite lookup_insert_eq in Hstored.
    injection Hstored as Heq. by rewrite <- Heq in Hvis.
  - intros now k. apply detail_by_counts; [done| |done].
    unfold orm.comments_on_content. cbn [comments set_comments].
    by apply length_filter_insert with (a := row).
Qed.

(** X18: a toggle writes only when it answers 200.  In every other
    outcome (403 for the anonymous user, 404 for a missing target, the
    unhandled DoesNotExist for a missing user row) the store is as it was;
    and the anonymous user gets 403 whether or not the target exists. *)
Theorem toggle_writes_only_on_200 db request id :
  (let out := content_favorite request id db in
   (http_status out.1 ≠ HTTP_200_OK → out.2 = db) ∧
   (request_user_id request = None →
    out = (Ok {| status_code := HTTP_403_FORBIDDEN; data := [] |}, db))) ∧
  (let out := content_like request id db in
   (http_status out.1 ≠ HTTP_200_OK → out.2 = db) ∧
   (request_user_id request = None →
    out = (Ok {| status_code := HTTP_403_FORBIDDEN; data := [] |}, db))) ∧
  (let out := comment_like request id db in
   (http_status out.1 ≠ HTTP_200_OK → out.2 = db) ∧
   (request_user_id request = None →
    out = (Ok {| status_code := HTTP_403_FORBIDDEN; data := [] |}, db))).
Proof.
  cbv zeta.
  rewrite content_favorite_unfold, content_like_unfold, comment_like_unfold.
  destruct (request_user_id request) as [uid|]; [|done].
  destruct (users db !! uid) as [me|]; [|done].
  destruct (contents db !! id), (comments db !! id);
    repeat case_bool_decide; cbn [fst snd http_status status_code];
    split_and!; done.
Qed.

(** X19: when a toggle answers 200 it flips the membership of the pair
    (actor, target) in its own relation and changes nothing else: every
    other pair keeps its membership, and the users, both tables and the
    two other relations are as they were. *)
Theorem toggle_flips_pair db request id :
  (let out := content_favorite request id db in
   http_status out.1 = HTTP_200_OK →
   ∃ uid, request_user_id request = Some uid ∧
     ((uid, id) ∈ favorite_contents out.2 ↔ (uid, id) ∉ favorite_contents db) ∧
     (∀ p, p ≠ (uid, id) →
           (p ∈ favorite_contents out.2 ↔ p ∈ favorite_contents db)) ∧
     users out.2 = users db ∧ contents out.2 = contents db ∧
     comments out.2 = comments db ∧
     liked_contents out.2 = liked_contents db ∧
     liked_comments out.2 = liked_comments db) ∧
  (let out := content_like request id db in
   http_status out.1 = HTTP_200_OK →
   ∃ uid, request_user_id request = Some uid ∧
     ((uid, id) ∈ liked_contents out.2 ↔ (uid, id) ∉ liked_contents db) ∧
     (∀ p, p ≠ (uid, id) →
           (p ∈ liked_contents out.2 ↔ p ∈ liked_contents db)) ∧
     users out.2 = users db ∧ contents out.2 = contents db ∧
     comments out.2 = comments db ∧
     favorite_contents out.2 = favorite_contents db ∧
     liked_comments out.2 = liked_comments db) ∧
  (let out := comment_like request id db in
   http_status out.1 = HTTP_200_OK →
   ∃ uid, request_user_id request = Some uid ∧
     ((uid, id) ∈ liked_comments out.2 ↔ (uid, id) ∉ liked_comments db) ∧
     (∀ p, p ≠ (uid, id) →
           (p ∈ liked_comments out.2 ↔ p ∈ liked_comments db)) ∧
     users out.2 = users db ∧ contents out.2 = contents db ∧
     comments out.2 = comments db ∧
     favorite_contents out.2 = favorite_contents db ∧
     liked_contents out.2 = liked_contents db).
Proof.
  cbv zeta.
  rewrite content_favorite_unfold, content_like_unfold, comment_like_unfold.
  destruct (request_user_id request) as [uid|]; [|done].
  destruct (users db !! uid) as [me|]; [|done].
  split_and!.
  - destruct (contents db !! id); [|done].
    case_bool_decide as Hin; cbn [fst snd]; intros _; exists uid;
      split_and!; try done; cbn;
      try (intros p Hp);
      rewrite ?elem_of_difference, ?elem_of_union, ?elem_of_singleton; tauto.
  - destruct (contents db !! id); [|done].
    case_bool_decide as Hin; cbn [fst snd]; intros _; exists uid;
      split_and!; try done; cbn;
      try (intros p Hp);
      rewrite ?elem_of_difference, ?elem_of_union, ?elem_of_singleton; tauto.
  - destruct (comments db !! id); [|done].
    case_bool_decide as Hin; cbn [fst snd]; intros _; exists uid;
      split_and!; try done; cbn;
      try (intros p Hp);
      rewrite ?elem_of_difference, ?elem_of_union, ?elem_of_singleton; tauto.
Qed.

(** X20: favorites and comment likes never enter the ranking.  After a
    favorite toggle the detail lookup of every content, and every content
    list that favorite-by does not decide, answer as before; after a
    comment-like toggle every detail lookup and every content list answer
    as before. *)
Theorem favorite_does_not_rank db request id :
  (let db' := (content_favorite request id db).2 in
   (∀ now k, ContentDetailAPIView.get_queryset db' now k =
             ContentDetailAPIView.get_queryset db now k) ∧
   (∀ now q, truthy (favorite_by q) = false →
             ContentListAPIView.get_queryset db' now q =
             ContentListAPIView.get_queryset db now q)) ∧
  (let db' := (comment_like request id db).2 in
   (∀ now k, ContentDetailAPIView.get_queryset db' now k =
             ContentDetailAPIView.get_queryset db now k) ∧
   (∀ now q, ContentListAPIView.get_queryset db' now q =
             ContentListAPIView.get_queryset db now q)).
Proof.
  cbv zeta. rewrite content_favorite_unfold, comment_like_unfold.
  destruct (request_user_id request) as [uid|]; [|done].
  destruct (users db !! uid) as [me|]; [|done].
  split.
  - destruct (contents db !! id); [|done].
    case_bool_decide; cbn [snd]; (split; [done|]); intros now q Hf;
      unfold ContentListAPIView.get_queryset, ContentListAPIView.rows;
      rewrite Hf; cbn [users contents set_favorite_contents];
      repeat match goal with
             | |- context [truthy ?o] => destruct (truthy o)
             | |- context [isdecimal ?o] => destruct (isdecimal o)
             | |- context [orm.objects_get ?t ?k] => destruct (orm.objects_get t k)
             end; reflexivity.
  - destruct (comments db !! id); [|done].
    case_bool_decide; cbn [snd]; (split; [done|]); intros now q;
      unfold ContentListAPIView.get_queryset, ContentListAPIView.rows;
      cbn [users contents set_liked_comments];
      repeat match goal with
             | |- context [truthy ?o] => destruct (truthy o)
             | |- context [isdecimal ?o] => destruct (isdecimal o)
             | |- context [orm.objects_get ?t ?k] => destruct (orm.objects_get t k)
             end; reflexivity.
Qed.

(** X21: a like raises the score and its cancellation lowers it.  When
    the like toggle reports success, the detail lookup of the content (at
    the same time) finds a larger like_count, a comment_count that is not
    smaller and a larger article_point than before; when it reports
    canceled, a smaller like_count, a comment_count that is not larger and
    a smaller article_point. *)
Theorem like_moves_score db request id now r r' :
  let out := content_like request id db in
  ContentDetailAPIView.get_queryset db now id = Ok [r] →
  ContentDetailAPIView.get_queryset out.2 now id = Ok [r'] →
  (report_of "Like content" out.1 = Some success →
   like_count r < like_count r' ∧ comment_count r ≤ comment_count r' ∧
   article_point r < article_point r') ∧
  (report_of "Like content" out.1 = Some canceled →
   like_count r' < like_count r ∧ comment_count r' ≤ comment_count r ∧
   article_point r' < article_point r).
Proof.
  cbv zeta. rewrite content_like_unfold.
  intros Hr Hr'.
  apply detail_row in Hr as (c & Hc & _ & ->).
  apply detail_row in Hr' as (c' & Hc' & _ & ->).
  destruct (request_user_id request) as [uid|]; [|done].
  destruct (users db !! uid) as [me|]; [|done].
  rewrite Hc in Hc' |- *.
  pose proof (Nat2Z.is_nonneg (length (orm.comments_on_content db id))) as Hnc.
  case_bool_decide as Hin; cbn [fst snd] in *;
    [split; [done|intros _]|split; [intros _|done]];
    cbn in Hc'; simplify_eq;
    unfold ContentDetailAPIView.annotate; cbn [fst snd like_count comment_count
      article_point].
  - (* canceled: the store before is the store after plus the pair *)
    set (db' := set_liked_contents (liked_contents db ∖ {[(uid, id)]}) db).
    assert (length (orm.liked_by db id) = S (length (orm.liked_by db' id))) as Hlen.
    { rewrite <- (liked_by_add db' uid id) by apply not_elem_of_removed.
      unfold orm.liked_by. cbn [liked_contents set_liked_contents db'].
      by rewrite remove_then_add. }
    assert (orm.comments_on_content db' id = orm.comments_on_content db id)
      as Hcms by done.
    destruct (plain_counts db id) as [-> ->], (plain_counts db' id) as [-> ->].
    rewrite Hcms, Hlen, Nat2Z.inj_succ, <- Z.add_1_r.
    pose proof (Nat2Z.is_nonneg (length (orm.liked_by db' id))) as Hnl.
    destruct (score_with_one_more_like _ _ Hnc Hnl). lia.
  - (* success: one more like *)
    set (db' := set_liked_contents ({[(uid, id)]} ∪ liked_contents db) db).
    pose proof (liked_by_add db uid id Hin) as Hlen. fold db' in Hlen.
    assert (orm.comments_on_content db' id = orm.comments_on_content db id)
      as Hcms by done.
    destruct (plain_counts db id) as [-> ->], (plain_counts db' id) as [-> ->].
    rewrite Hcms, Hlen, Nat2Z.inj_succ, <- Z.add_1_r.
    pose proof (Nat2Z.is_nonneg (length (orm.liked_by db id))) as Hnl.
    destruct (score_with_one_more_like _ _ Hnc Hnl). lia.
Qed.


(** * More of the views: create *)

Section create_facts.

Lemma thread_membership db k GET :
  k ≠ 0 →
  ∃ rows, CommentListAPIView.get_queryset db (Some k) GET = Ok rows ∧
    ∀ id c, (id, c) ∈ rows ↔
            comments db !! id = Some c ∧ comment_contentinfo_id c = k ∧
            comment_is_visible c = true.
Proof.
  intros Hk. unfold CommentListAPIView.get_queryset.
  rewrite bool_decide_true by (split; [by eexists|congruence]).
  eexists. split; [done|].
  intros id c. rewrite elem_of_order_by. unfold orm.fetch. cbn.
  rewrite list_elem_of_filter, elem_of_map_to_list. cbn. naive_solver.
Qed.

End create_facts.

(** X23: creating a content row.  An invalid payload raises the
    validation error and writes nothing, whoever sends it.  A valid
    payload from an authenticated user is answered 201 and stores one row
    under the new key: owned by the requester and visible whatever the
    payload says, with the columns the serializer validated; when the key
    is unused no stored row is lost or changed, and the users, the
    comments and the relations are as they were. *)
Theorem post_content (ContentSerializer : CreateSerializer ContentInfo)
    db new_pk request :
  let out := ContentListAPIView.post ContentSerializer new_pk request db in
  (is_valid_data ContentSerializer (request_data request) = false →
   out = (inr (Raise ValidationError), db)) ∧
  (∀ uid, is_valid_data ContentSerializer (request_data request) = true →
     request_user_id request = Some uid →
     contents db !! new_pk = None →
     ∃ resp row,
       out.1 = inr (Ok resp) ∧ status_code resp = HTTP_201_CREATED ∧
       contents out.2 !! new_pk = Some row ∧
       content_userinfo_id row = uid ∧ content_is_visible row = true ∧
       content_fields row =
         content_fields (create ContentSerializer (request_data request)) ∧
       (∀ k c, contents db !! k = Some c → contents out.2 !! k = Some c) ∧
       (∀ k, k ≠ new_pk → contents out.2 !! k = contents db !! k) ∧
       users out.2 = users db ∧ comments out.2 = comments db ∧
       favorite_contents out.2 = favorite_contents db ∧
       liked_contents out.2 = liked_contents db ∧
       liked_comments out.2 = liked_comments db).
Proof.
  cbv zeta. unfold ContentListAPIView.post. split.
  - by intros ->.
  - intros uid -> -> Hfresh.
    eexists _, {| content_userinfo_id := uid; content_is_visible := true;
                  content_fields := _; content_create_dt := _ |}.
    cbn [fst snd]. split_and!; try done; cbn.
    + apply lookup_insert_eq.
    + intros k c Hk. rewrite lookup_insert_ne; [done|congruence].
    + intros k Hk. by rewrite lookup_insert_ne.
Qed.

(** X24: what stops the creation of a comment, in the order the view
    checks.  An invalid payload raises the validation error even when the
    content does not exist; a valid payload for an id that names no
    content row raises DoesNotExist, which is not answered as 404; in both
    cases nothing is written. *)
Theorem post_comment_refused (CommentSerializer : CreateSerializer CommentInfo)
    db new_pk request content_id :
  let out := CommentListAPIView.post CommentSerializer new_pk request content_id db in
  (is_valid_data CommentSerializer (request_data request) = false →
   out = (inr (Raise ValidationError), db)) ∧
  (is_valid_data CommentSerializer (request_data request) = true →
   contents db !! content_id = None →
   out = (inr (Raise DoesNotExist), db) ∧
   exn_status DoesNotExist ≠ HTTP_404_NOT_FOUND).
Proof.
  cbv zeta. unfold CommentListAPIView.post, orm.objects_get. split.
  - by intros ->.
  - by intros -> ->.
Qed.

(** X25: creating a comment.  A valid payload from an authenticated user
    on an existing content row, visible or soft-deleted, is answered 201
    and stores one comment under the new key: owned by the requester,
    attached to the content of the URL and visible, whatever the payload
    says; when the key is unused no stored comment is lost or changed,
    and the users, the contents and the relations are as they were. *)
Theorem post_comment_created (CommentSerializer : CreateSerializer CommentInfo)
    db new_pk request content_id uid content :
  is_valid_data CommentSerializer (request_data request) = true →
  request_user_id request = Some uid →
  contents db !! content_id = Some content →
  comments db !! new_pk = None →
  let out := CommentListAPIView.post CommentSerializer new_pk request content_id db in
  ∃ resp row,
    out.1 = inr (Ok resp) ∧ status_code resp = HTTP_201_CREATED ∧
    comments out.2 !! new_pk = Some row ∧
    comment_userinfo_id row = uid ∧ comment_contentinfo_id row = content_id ∧
    comment_is_visible row = true ∧
    comment_fields row =
      comment_fields (create CommentSerializer (request_data request)) ∧
    (∀ k c, comments db !! k = Some c → comments out.2 !! k = Some c) ∧
    (∀ k, k ≠ new_pk → comments out.2 !! k = comments db !! k) ∧
    users out.2 = users db ∧ contents out.2 = contents db ∧
    favorite_contents out.2 = favorite_contents db ∧
    liked_contents out.2 = liked_contents db ∧
    liked_comments out.2 = liked_comments db.
Proof.
  intros Hvalid Huser Hcontent Hfresh. cbv zeta.
  unfold CommentListAPIView.post, orm.objects_get.
  rewrite Hvalid, Hcontent, Huser.
  eexists _, {| comment_userinfo_id := uid; comment_is_visible := true;
                comment_contentinfo_id := content_id; comment_fields := _;
                comment_create_dt := _ |}.
  cbn [fst snd]. split_and!; try done; cbn.
  - apply lookup_insert_eq.
  - intros k c Hk. rewrite lookup_insert_ne; [done|congruence].
  - intros k Hk. by rewrite lookup_insert_ne.
Qed.

(** X26: a content row that was just created is found.  When nothing in
    the store refers to the new key (no comment is attached to it, no
    like points to it), the detail lookup of the new key holds one row,
    with comment_count = 0, like_count = 0 and article_point = -5 times
    its age in days; and the content list without selector holds it. *)
Theorem post_content_then_read (ContentSerializer : CreateSerializer ContentInfo)
    db new_pk request uid now :
  is_valid_data ContentSerializer (request_data request) = true →
  request_user_id request = Some uid →
  (∀ id c, comments db !! id = Some c → comment_contentinfo_id c ≠ new_pk) →
  (∀ u, (u, new_pk) ∉ liked_contents db) →
  let db' := (ContentListAPIView.post ContentSerializer new_pk request db).2 in
  (∃ r, ContentDetailAPIView.get_queryset db' now new_pk = Ok [r] ∧
        pk r = new_pk ∧ comment_count r = 0 ∧ like_count r = 0 ∧
        article_point r = -5 * duration r) ∧
  (∃ rows r, ContentListAPIView.get_queryset db' now no_params = Ok rows ∧
             r ∈ rows ∧ pk r = new_pk).
Proof.
  intros Hvalid Huser Hcomments Hlikes. cbv zeta.
  unfold ContentListAPIView.post. rewrite Hvalid, Huser. cbn [snd].
  set (row := {| content_userinfo_id := uid; content_is_visible := true;
                 content_fields := _; content_create_dt := _ |}).
  set (db' := set_contents _ db).
  assert (contents db' !! new_pk = Some row) as Hrow by apply lookup_insert_eq.
  split.
  - rewrite detail_eq, Hrow. cbn [content_is_visible row].
    eexists. split; [done|]. cbn [pk comment_count like_count article_point
      duration ContentDetailAPIView.annotate fst snd].
    destruct (plain_counts db' new_pk) as [-> ->].
    assert (orm.comments_on_content db' new_pk = []) as ->.
    { apply elem_of_nil_inv. intros [id c]. unfold orm.comments_on_content.
      rewrite list_elem_of_filter, elem_of_map_to_list. cbn.
      intros [Heq Hc]. by apply (Hcomments id c). }
    assert (orm.liked_by db' new_pk = []) as ->.
    { apply elem_of_nil_inv. intros [u k]. unfold orm.liked_by.
      rewrite list_elem_of_filter, elem_of_elements. cbn.
      intros [-> Hin]. by apply (Hlikes u). }
    cbn [length]. split_and!; try done; lia.
  - assert (ContentListAPIView.rows db' no_params =
            Ok (orm.qs_filter (λ r, content_is_visible r.2 = true)
                  (orm.objects (contents db')))) as Hqs by done.
    destruct (list_Ok db' now no_params _ Hqs) as [rows Hrows]. exists rows.
    assert (∃ r, r ∈ rows ∧ pk r = new_pk ∧ row_instance r = row)
      as (r & Hr & Hpk & _); [|eauto].
    apply (list_membership db' now no_params _ rows new_pk row Hqs Hrows).
    split; [|done]. cbn. apply list_elem_of_filter. split; [done|].
    by apply elem_of_map_to_list.
Qed.

(** X27: a comment that was just created is in its thread.  After a
    valid comment from an authenticated user on an existing content of id
    other than 0, stored under an unused key, the thread list of that
    content holds the new comment and every comment it held before. *)
Theorem post_comment_then_thread (CommentSerializer : CreateSerializer CommentInfo)
    db new_pk request content_id uid content GET :
  content_id ≠ 0 →
  is_valid_data CommentSerializer (request_data request) = true →
  request_user_id request = Some uid →
  contents db !! content_id = Some content →
  comments db !! new_pk = None →
  let db' :=
    (CommentListAPIView.post CommentSerializer new_pk request content_id db).2 in
  ∃ before after,
    CommentListAPIView.get_queryset db (Some content_id) GET = Ok before ∧
    CommentListAPIView.get_queryset db' (Some content_id) GET = Ok after ∧
    (∃ c, (new_pk, c) ∈ after ∧ comment_userinfo_id c = uid) ∧
    (∀ x, x ∈ before → x ∈ after).
Proof.
  intros Hk Hvalid Huser Hcontent Hfresh. cbv zeta.
  unfold CommentListAPIView.post, orm.objects_get.
  rewrite Hvalid, Hcontent, Huser. cbn [fst snd].
  set (row := {| comment_userinfo_id := uid; comment_is_visible := true;
                 comment_contentinfo_id := _; comment_fields := _;
                 comment_create_dt := _ |}).
  set (db' := set_comments _ db).
  destruct (thread_membership db content_id GET Hk) as (before & Hbefore & Hb).
  destruct (thread_membership db' content_id GET Hk) as (after & Hafter & Ha).
  exists before, after. split_and!; try done.
  - exists row. split; [|done]. apply Ha. cbn. by rewrite lookup_insert_eq.
  - intros [id c] Hin. apply Hb in Hin as (Hc & ? & ?). apply Ha.
    split_and!; try done. cbn. rewrite lookup_insert_ne; [done|congruence].
Qed.

(** * The further theorems at the example store *)

Lemma list_rows_stored_visible_witness :
  contents example_db !! 10 = Some (example_content 1 0 true) ∧
  content_is_visible (example_content 1 0 true) = true.
Proof.
  apply (list_rows_stored_visible example_db example_now no_params
           example_rows example_row).
  - vm_compute. reflexivity.
  - left.
Defined.

Lemma list_without_selector_witness :
  ∃ rows, ContentListAPIView.get_queryset example_db example_now no_params = Ok rows ∧
    ∀ k c, (∃ r, r ∈ rows ∧ pk r = k ∧ row_instance r = c) ↔
           contents example_db !! k = Some c ∧ content_is_visible c = true.
Proof.
  apply (list_without_selector example_db example_now no_params). reflexivity.
Defined.



Lemma list_pks_NoDup_witness : NoDup (pk <$> example_rows).
Proof.
  apply (list_pks_NoDup example_db example_now no_params example_rows).
  vm_compute. reflexivity.
Defined.

Lemma order_mode_permutes_witness : example_rows ≡ₚ reverse example_rows.
Proof.
  apply (order_mode_permutes example_db example_now no_params (Some "new")).
  - vm_compute. reflexivity.
  - vm_compute. reflexivity.
Defined.

Lemma selector_precedence_witness :
  ContentListAPIView.get_queryset example_db example_now
    (params (Some "1") (Some "abc") (Some "x")) =
  ContentListAPIView.get_queryset example_db example_now
    (params (Some "1") None None).
Proof.
  apply (proj1 (selector_precedence example_db example_now
                  (params (Some "1") (Some "abc") (Some "x")) None None)).
  reflexivity.
Defined.

Lemma article_point_decays_witness :
  comment_count example_row_later = comment_count example_row ∧
  like_count example_row_later = like_count example_row ∧
  duration example_row ≤ duration example_row_later ∧
  article_point example_row_later =
    article_point example_row
    - 5 * (duration example_row_later - duration example_row).
Proof.
  apply (article_point_decays example_db 10 example_now example_later).
  - vm_compute. discriminate.
  - vm_compute. reflexivity.
  - vm_compute. reflexivity.
Defined.

Lemma detail_counts_witness :
  comment_count example_row = 2 * Z.max 1 2 ∧
  like_count example_row = Z.max 1 2 * 2.
Proof.
  pose proof (detail_counts example_db example_now 10 example_row) as H.
  cbv zeta in H.
  assert (ContentDetailAPIView.get_queryset example_db example_now 10 =
          Ok [example_row]) as Hrow by (vm_compute; reflexivity).
  specialize (H Hrow). vm_compute in H |- *. exact H.
Defined.

Lemma thread_comments_witness :
  ∃ rows, CommentListAPIView.get_queryset example_db (Some 10)
            (params None (Some "abc") None) = Ok rows ∧
    StronglySorted (λ x y, comment_create_dt x.2 ≤ comment_create_dt y.2) rows ∧
    ∀ id c, (id, c) ∈ rows ↔
            comments example_db !! id = Some c ∧ comment_contentinfo_id c = 10 ∧
            comment_is_visible c = true.
Proof.
  apply (thread_comments example_db 10 (params None (Some "abc") None)).
  - discriminate.
  - split; by vm_compute.
Defined.

Lemma global_comments_latest_first_witness :
  StronglySorted (λ x y, comment_create_dt y.2 ≤ comment_create_dt x.2)
    [(101, example_comment 2 10 8 true); (100, example_comment 1 10 7 true)] ∧
  ∀ id c, (id, c) ∈ [(101, example_comment 2 10 8 true);
                     (100, example_comment 1 10 7 true)] →
          comments example_db !! id = Some c ∧ comment_is_visible c = true.
Proof.
  apply (global_comments_latest_first example_db None no_params).
  - left. reflexivity.
  - vm_compute. reflexivity.
Defined.


Lemma delete_hides_content_witness :
  let db' := (ContentDetailAPIView.delete (request_of 1) 10 example_db).2 in
  (∀ now, ContentDetailAPIView.get_queryset db' now 10 = Ok []) ∧
  (∀ now q rows r,
     ContentListAPIView.get_queryset db' now q = Ok rows → r ∈ rows → pk r ≠ 10) ∧
  liked_contents db' = liked_contents example_db ∧
  favorite_contents db' = favorite_contents example_db.
Proof.
  apply (delete_hides_content example_db (request_of 1) 10 (example_content 1 0 true)).
  - vm_compute. reflexivity.
  - reflexivity.
Defined.

Lemma delete_frame_witness :
  let db' := (ContentDetailAPIView.delete (request_of 1) 10 example_db).2 in
  ∃ c', contents db' !! 11 = Some c' ∧ c' = example_content 2 86400000000 true.
Proof.
  cbv zeta.
  destruct (delete_frame example_db (request_of 1) 10) as [Hcontent _].
  cbv zeta in Hcontent. destruct Hcontent as (_ & _ & _ & _ & _ & Hrows).
  specialize (Hrows 11).
  assert (contents example_db !! 11 = Some (example_content 2 86400000000 true))
    as Hrow by (vm_compute; reflexivity).
  rewrite Hrow in Hrows. destruct Hrows as (c' & Hc' & _ & _ & _ & _ & Hother).
  exists c'. split; [exact Hc'|]. apply Hother. discriminate.
Defined.

Lemma put_frame_witness :
  ContentDetailAPIView.put example_content_serializer
    {| request_user_id := Some 1; request_data := [] |} 10 example_db =
  (Raise ValidationError, example_db).
Proof.
  destruct (put_frame example_content_serializer example_comment_serializer
              example_db {| request_user_id := Some 1; request_data := [] |} 10)
    as [Hcontent _].
  cbv zeta in Hcontent. destruct Hcontent as (_ & _ & _ & _ & _ & _ & _ & _ & Hinvalid).
  apply (Hinvalid (example_content 1 0 true)).
  - vm_compute. reflexivity.
  - reflexivity.
  - reflexivity.
Defined.

Lemma comment_delete_effects_witness :
  let db' := (CommentDetailAPIView.delete (request_of 1) 100 example_db).2 in
  (∀ content_id GET rows c,
     CommentListAPIView.get_queryset db' content_id GET = Ok rows →
     (100, c) ∉ rows) ∧
  (∀ now k, ContentDetailAPIView.get_queryset db' now k =
            ContentDetailAPIView.get_queryset example_db now k).
Proof.
  apply (comment_delete_effects example_db (request_of 1) 100
           (example_comment 1 10 7 true)).
  - vm_compute. reflexivity.
  - reflexivity.
Defined.

Lemma toggle_writes_only_on_200_witness :
  content_like {| request_user_id := None; request_data := [] |} 99 example_db =
  (Ok {| status_code := HTTP_403_FORBIDDEN; data := [] |}, example_db) ∧
  (comment_like (request_of 1) 99 example_db).2 = example_db.
Proof.
  split.
  - destruct (toggle_writes_only_on_200 example_db
                {| request_user_id := None; request_data := [] |} 99)
      as (_ & Hlike & _).
    cbv zeta in Hlike. apply Hlike. reflexivity.
  - destruct (toggle_writes_only_on_200 example_db (request_of 1) 99)
      as (_ & _ & Hlike).
    cbv zeta in Hlike. apply Hlike. vm_compute. discriminate.
Defined.

Lemma toggle_flips_pair_witness :
  let out := content_like (request_of 1) 11 example_db in
  ∃ uid, request_user_id (request_of 1) = Some uid ∧
    ((uid, 11) ∈ liked_contents out.2 ↔ (uid, 11) ∉ liked_contents example_db) ∧
    (∀ p, p ≠ (uid, 11) →
          (p ∈ liked_contents out.2 ↔ p ∈ liked_contents example_db)) ∧
    users out.2 = users example_db ∧ contents out.2 = contents example_db ∧
    comments out.2 = comments example_db ∧
    favorite_contents out.2 = favorite_contents example_db ∧
    liked_comments out.2 = liked_comments example_db.
Proof.
  destruct (toggle_flips_pair example_db (request_of 1) 11) as (_ & Hlike & _).
  cbv zeta in Hlike |- *. apply Hlike. vm_compute. reflexivity.
Defined.

Lemma favorite_does_not_rank_witness :
  ContentListAPIView.get_queryset
    (content_favorite (request_of 2) 10 example_db).2 example_now no_params =
  ContentListAPIView.get_queryset example_db example_now no_params.
Proof.
  destruct (favorite_does_not_rank example_db (request_of 2) 10) as [Hfavorite _].
  cbv zeta in Hfavorite. destruct Hfavorite as [_ Hlist].
  apply Hlist. reflexivity.
Defined.

Lemma like_moves_score_witness :
  like_count example_row_11 < like_count example_row_11_liked ∧
  comment_count example_row_11 ≤ comment_count example_row_11_liked ∧
  article_point example_row_11 < article_point example_row_11_liked.
Proof.
  assert (ContentDetailAPIView.get_queryset example_db example_now 11 =
          Ok [example_row_11]) as Hbefore by (vm_compute; reflexivity).
  assert (ContentDetailAPIView.get_queryset
            (content_like (request_of 2) 11 example_db).2 example_now 11 =
          Ok [example_row_11_liked]) as Hafter by (vm_compute; reflexivity).
  pose proof (like_moves_score example_db (request_of 2) 11 example_now
                example_row_11 example_row_11_liked) as H.
  cbv zeta in H. destruct (H Hbefore Hafter) as [Hsuccess _].
  apply Hsuccess. vm_compute. reflexivity.
Defined.


Lemma post_content_witness :
  let out := ContentListAPIView.post example_content_creator 13 (request_of 1)
               example_db in
  ∃ resp row,
    out.1 = inr (Ok resp) ∧ status_code resp = HTTP_201_CREATED ∧
    contents out.2 !! 13 = Some row ∧
    content_userinfo_id row = 1 ∧ content_is_visible row = true.
Proof.
  destruct (post_content example_content_creator example_db 13 (request_of 1))
    as [_ Hcreated].
  cbv zeta in Hcreated |- *.
  destruct (Hcreated 1) as (resp & row & H1 & H2 & H3 & H4 & H5 & _).
  - reflexivity.
  - reflexivity.
  - vm_compute. reflexivity.
  - exists resp, row. repeat split; assumption.
Defined.

Lemma post_comment_refused_witness :
  CommentListAPIView.post example_comment_creator 103 (request_of 1) 99 example_db =
  (inr (Raise DoesNotExist), example_db) ∧
  exn_status DoesNotExist ≠ HTTP_404_NOT_FOUND.
Proof.
  destruct (post_comment_refused example_comment_creator example_db 103
              (request_of 1) 99) as [_ Hmissing].
  cbv zeta in Hmissing. apply Hmissing.
  - reflexivity.
  - vm_compute. reflexivity.
Defined.

Lemma post_comment_created_witness :
  let out := CommentListAPIView.post example_comment_creator 103 (request_of 2) 12
               example_db in
  ∃ resp row,
    out.1 = inr (Ok resp) ∧ status_code resp = HTTP_201_CREATED ∧
    comments out.2 !! 103 = Some row ∧
    comment_userinfo_id row = 2 ∧ comment_contentinfo_id row = 12 ∧
    comment_is_visible row = true.
Proof.
  destruct (post_comment_created example_comment_creator example_db 103
              (request_of 2) 12 2 (example_content 1 5 false))
    as (resp & row & H1 & H2 & H3 & H4 & H5 & H6 & _).
  - reflexivity.
  - reflexivity.
  - vm_compute. reflexivity.
  - vm_compute. reflexivity.
  - exists resp, row. repeat split; assumption.
Defined.

(** Nothing in the example store refers to content 13. *)
Lemma example_db_without_13 :
  (∀ id c, comments example_db !! id = Some c → comment_contentinfo_id c ≠ 13) ∧
  (∀ u, (u, 13) ∉ liked_contents example_db).
Proof.
  split.
  - assert (bool_decide
              (map_Forall (λ (_ : Z) c, comment_contentinfo_id c ≠ 13)
                 (comments example_db)) = true)
      as Hall by (vm_compute; reflexivity).
    apply bool_decide_eq_true in Hall. exact Hall.
  - assert (bool_decide
              (set_Forall (λ p : Z * Z, p.2 ≠ 13) (liked_contents example_db)) = true)
      as Hall by (vm_compute; reflexivity).
    apply bool_decide_eq_true in Hall.
    intros u Hin. by apply (Hall _ Hin).
Qed.

Lemma post_content_then_read_witness :
  let db' := (ContentListAPIView.post example_content_creator 13 (request_of 1)
                example_db).2 in
  (∃ r, ContentDetailAPIView.get_queryset db' example_now 13 = Ok [r] ∧
        pk r = 13 ∧ comment_count r = 0 ∧ like_count r = 0 ∧
        article_point r = -5 * duration r) ∧
  (∃ rows r, ContentListAPIView.get_queryset db' example_now no_params = Ok rows ∧
             r ∈ rows ∧ pk r = 13).
Proof.
  apply (post_content_then_read example_content_creator example_db 13
           (request_of 1) 1 example_now eq_refl eq_refl
           (proj1 example_db_without_13) (proj2 example_db_without_13)).
Defined.

Lemma post_comment_then_thread_witness :
  let db' := (CommentListAPIView.post example_comment_creator 103 (request_of 2) 10
                example_db).2 in
  ∃ before after,
    CommentListAPIView.get_queryset example_db (Some 10) no_params = Ok before ∧
    CommentListAPIView.get_queryset db' (Some 10) no_params = Ok after ∧
    (∃ c, (103, c) ∈ after ∧ comment_userinfo_id c = 2) ∧
    (∀ x, x ∈ before → x ∈ after).
Proof.
  apply (post_comment_then_thread example_comment_creator example_db 103
           (request_of 2) 10 2 (example_content 1 0 true) no_params).
  - discriminate.
  - reflexivity.
  - reflexivity.
  - vm_compute. reflexivity.
  - vm_compute. reflexivity.
Defined.
